(** * OpenFloorClient: a shallow embedding of [openfloor_client.py]

    The client builds Open Floor envelopes, posts them over HTTP and digs
    the answer out of the loosely typed response JSON with chains of
    [.get()], [in], subscripts and truthiness tests.  The embedding keeps
    that code shape:

    - response JSON is the tree [json.loads] produces (objects keep their
      insertion order, as Python dicts do, because [str()] shows it);
    - every Python primitive the client applies to such a value is a
      function into [outcome], which either returns or raises;
    - the session methods run in a state-and-exception monad [M] whose
      state holds the client object, the number of uuids drawn so far and
      the log of posted payloads.

    [print] calls are left out, except that the arguments they evaluate
    are evaluated (the [len(manifests)] of [get_manifest] can raise).
    The constructors and the serialisation of the [openfloor] package are
    taken to succeed, and [requests] to behave as documented. *)

From Stdlib Require Import String Ascii List ZArith NArith Lia Bool.
From Stdlib Require Import Floats.PrimFloat DecimalString.
Import ListNotations.
Local Open Scope string_scope.
Local Open Scope Z_scope.
Local Set Warnings "-register-all".

(** ** Python values that [json.loads] can produce *)

Inductive json : Type :=
| JNull
| JBool (b : bool)
| JInt (z : Z)
| JFloat (f : float)
| JStr (s : string)
| JArr (items : list json)
| JObj (fields : list (string * json)).

(** What [requests] raises: the subclasses of
    [requests.exceptions.RequestException] that matter here. *)
Inductive RequestException : Type :=
| ConnectionError
| Timeout
| HTTPError (status : Z)
| RequestsJSONDecodeError.

(** The exceptions that can arise in the client.  All of them derive from
    Python's [Exception], so the [except Exception] clauses catch each.
    [NetworkError] and [InvalidJSONResponse] are the two plain
    [Exception]s that [_send_envelope] raises, told apart by their
    message. *)
Inductive exn : Type :=
| AttributeError
| TypeError
| KeyError
| IndexError
| Requests (e : RequestException)
| JSONDecodeError
| NetworkError (cause : RequestException)
| InvalidJSONResponse.

Inductive outcome (A : Type) : Type :=
| Ok (a : A)
| Raise (e : exn).
Arguments Ok {A} a.
Arguments Raise {A} e.

Definition obind {A B} (m : outcome A) (k : A -> outcome B) : outcome B :=
  match m with
  | Ok a => k a
  | Raise e => Raise e
  end.

Notation "'let*' x ':=' m 'in' k" := (obind m (fun x => k))
  (at level 10, x name, m at level 100, k at level 200).

(** ** Strings as Python sees them

    A Rocq [string] is the UTF-8 encoding of the Python [str]; a Python
    character is a lead byte followed by its continuation bytes. *)

Definition is_continuation (c : ascii) : bool :=
  let n := N_of_ascii c in (128 <=? n)%N && (n <? 192)%N.

Definition starts_with_continuation (s : string) : bool :=
  match s with
  | String d _ => is_continuation d
  | EmptyString => false
  end.

Fixpoint py_chars (s : string) : list string :=
  match s with
  | EmptyString => []
  | String c rest =>
      let chs := py_chars rest in
      if starts_with_continuation rest then
        match chs with
        | ch :: chs' => String c ch :: chs'
        | [] => [String c EmptyString]
        end
      else String c EmptyString :: chs
  end.

(** [needle in hay] for two strings. *)
Fixpoint is_substring (needle hay : string) : bool :=
  if String.prefix needle hay then true
  else match hay with
       | EmptyString => false
       | String _ rest => is_substring needle rest
       end.

Fixpoint join (sep : string) (parts : list string) : string :=
  match parts with
  | [] => EmptyString
  | [p] => p
  | p :: rest => p ++ sep ++ join sep rest
  end.

(** ** Dictionaries *)

Fixpoint dict_get (k : string) (d : list (string * json)) : option json :=
  match d with
  | [] => None
  | (k', v) :: rest => if String.eqb k k' then Some v else dict_get k rest
  end.

Definition dict_has (k : string) (d : list (string * json)) : bool :=
  match dict_get k d with Some _ => true | None => false end.

(** ** The Python primitives the client applies to response data *)

(** [bool(x)] *)
Definition truthy (x : json) : bool :=
  match x with
  | JNull => false
  | JBool b => b
  | JInt z => negb (z =? 0)
  | JFloat f => negb (PrimFloat.eqb f PrimFloat.zero)
  | JStr s => negb (String.eqb s EmptyString)
  | JArr items => match items with [] => false | _ => true end
  | JObj fields => match fields with [] => false | _ => true end
  end.

(** [x == 'literal'] *)
Definition eq_str (x : json) (lit : string) : bool :=
  match x with
  | JStr s => String.eqb s lit
  | _ => false
  end.

(** ['key' in x] *)
Definition py_in (key : string) (x : json) : outcome bool :=
  match x with
  | JObj fields => Ok (dict_has key fields)
  | JArr items => Ok (existsb (fun y => eq_str y key) items)
  | JStr s => Ok (is_substring key s)
  | _ => Raise TypeError
  end.

(** [x.get(key, default)] *)
Definition py_get (x : json) (key : string) (default : json) : outcome json :=
  match x with
  | JObj fields =>
      Ok (match dict_get key fields with Some v => v | None => default end)
  | _ => Raise AttributeError
  end.

(** [x['key']] *)
Definition py_getitem (x : json) (key : string) : outcome json :=
  match x with
  | JObj fields =>
      match dict_get key fields with Some v => Ok v | None => Raise KeyError end
  | _ => Raise TypeError
  end.

(** [x[0]] *)
Definition py_getitem0 (x : json) : outcome json :=
  match x with
  | JArr (y :: _) => Ok y
  | JArr [] => Raise IndexError
  | JStr s =>
      match py_chars s with ch :: _ => Ok (JStr ch) | [] => Raise IndexError end
  | JObj _ => Raise KeyError
  | _ => Raise TypeError
  end.

(** [iter(x)], run to the end *)
Definition py_iter (x : json) : outcome (list json) :=
  match x with
  | JArr items => Ok items
  | JStr s => Ok (map JStr (py_chars s))
  | JObj fields => Ok (map (fun kv => JStr (fst kv)) fields)
  | _ => Raise TypeError
  end.

(** [len(x)] *)
Definition py_len (x : json) : outcome Z :=
  match x with
  | JArr items => Ok (Z.of_nat (length items))
  | JStr s => Ok (Z.of_nat (length (py_chars s)))
  | JObj fields => Ok (Z.of_nat (length fields))
  | _ => Raise TypeError
  end.

(** [sep.join(items)] once the iterable has been run: every item must be
    a [str]. *)
Fixpoint all_strings (items : list json) : outcome (list string) :=
  match items with
  | [] => Ok []
  | JStr s :: rest => let* ss := all_strings rest in Ok (s :: ss)
  | _ :: _ => Raise TypeError
  end.

Definition py_join (sep : string) (items : list json) : outcome string :=
  let* ss := all_strings items in Ok (join sep ss).

Definition str_of_Z (z : Z) : string := NilZero.string_of_int (Z.to_int z).

Section Repr.
(** [repr] of a [str] and of a [float] belong to the interpreter. *)
Variable str_repr : string -> string.
Variable float_repr : float -> string.

Fixpoint py_repr (x : json) : string :=
  match x with
  | JNull => "None"
  | JBool true => "True"
  | JBool false => "False"
  | JInt z => str_of_Z z
  | JFloat f => float_repr f
  | JStr s => str_repr s
  | JArr items => "[" ++ join ", " (map py_repr items) ++ "]"
  | JObj fields =>
      "{" ++ join ", " (map (fun kv => let '(k, v) := kv in
                                        str_repr k ++ ": " ++ py_repr v) fields)
          ++ "}"
  end.

(** [str(x)], also what an f-string placeholder shows *)
Definition py_str (x : json) : string :=
  match x with
  | JStr s => s
  | _ => py_repr x
  end.
End Repr.

(** ** Identifiers: [uuid.uuid4()] *)

Definition hex_digit (n : N) : ascii :=
  match String.get (N.to_nat n) "0123456789abcdef" with
  | Some c => c
  | None => "0"%char
  end.

Fixpoint hex_of (digits : nat) (n : N) : string :=
  match digits with
  | O => EmptyString
  | S d => hex_of d (n / 16)%N ++ String (hex_digit (n mod 16)%N) EmptyString
  end.

(** [u.hex]: 32 lower-case hexadecimal digits of the 128-bit value *)
Definition uuid_hex (u : N) : string := hex_of 32 (u mod 2 ^ 128)%N.

(** [str(u)]: the digits grouped 8-4-4-4-12 *)
Definition uuid_str (u : N) : string :=
  let h := uuid_hex u in
  substring 0 8 h ++ "-" ++ substring 8 4 h ++ "-" ++ substring 12 4 h
    ++ "-" ++ substring 16 4 h ++ "-" ++ substring 20 12 h.

(** ** The envelope types of the [openfloor] package

    Only the fields the client sets, and the conversation id that the
    package fills in by itself, are kept. *)

Record Conversation := { Conversation_id : string }.
Record Sender := { Sender_speakerUri : string }.
Record To := { serviceUrl : string }.
Record TextFeature := { values : list string }.
Record DialogEvent :=
  { speakerUri : string; features : list (string * TextFeature) }.

Inductive Event : Type :=
| GetManifestsEvent (to : To)
| UtteranceEvent (dialogEvent : DialogEvent) (to : To).

Record Envelope :=
  { conversation : Conversation; sender : Sender; events : list Event }.
Record Payload := { openFloor : Envelope }.

(** ** HTTP: what [requests.post] can do *)

Record Response :=
  { status_code : Z;
    body : option json (* [None]: the body does not decode as JSON *) }.

Inductive post_outcome : Type :=
| PostRaises (e : RequestException)
| PostReturns (r : Response).

(** ** The client object and the monad its methods run in *)

Record OpenFloorClient :=
  { speaker_uri : string; service_url : string; conversation_id : string }.

Record state :=
  { this : OpenFloorClient;
    uuids_drawn : nat;
    posted : list (string * Payload) }.

Definition M (A : Type) : Type := state -> outcome A * state.

Definition ret {A} (a : A) : M A := fun st => (Ok a, st).

Definition raise {A} (e : exn) : M A := fun st => (Raise e, st).

Definition bind {A B} (m : M A) (k : A -> M B) : M B :=
  fun st =>
    match m st with
    | (Ok a, st') => k a st'
    | (Raise e, st') => (Raise e, st')
    end.

Definition lift {A} (o : outcome A) : M A := fun st => (o, st).

(** [try: body  except ...: handler] *)
Definition try_except {A} (body : M A) (handler : exn -> M A) : M A :=
  fun st =>
    match body st with
    | (Ok a, st') => (Ok a, st')
    | (Raise e, st') => handler e st'
    end.

Notation "x <- m ;; k" := (bind m (fun x => k))
  (at level 61, m at next level, right associativity).

Definition get_self : M OpenFloorClient := fun st => (Ok (this st), st).

Definition set_self (c : OpenFloorClient) : M unit :=
  fun st =>
    (Ok tt, {| this := c; uuids_drawn := uuids_drawn st; posted := posted st |}).

(** ** The methods of [OpenFloorClient] *)

Section Client.
(** The outside world: the interpreter's [repr] of strings and floats,
    the random source behind [uuid.uuid4()], the
    default [id] the [openfloor] package gives a [Conversation()] built
    without arguments (computed from a fresh uuid), and the remote end
    of [requests.post], which may answer differently on every call. *)
Variable str_repr : string -> string.
Variable float_repr : float -> string.
Variable uuid4_source : nat -> N.
Variable Conversation_default_id : N -> string.
Variable remote : nat -> string -> Payload -> post_outcome.

(** [uuid.uuid4()] *)
Definition uuid4 : M N :=
  fun st =>
    (Ok (uuid4_source (uuids_drawn st)),
     {| this := this st;
        uuids_drawn := S (uuids_drawn st);
        posted := posted st |}).

(** [requests.post(target_url, json=payload_dict, headers=..., timeout=30)] *)
Definition requests_post (target_url : string) (payload : Payload) : M Response :=
  fun st =>
    let st' := {| this := this st;
                  uuids_drawn := uuids_drawn st;
                  posted := posted st ++ [(target_url, payload)] |} in
    match remote (length (posted st)) target_url payload with
    | PostRaises e => (Raise (Requests e), st')
    | PostReturns r => (Ok r, st')
    end.

(** [response.raise_for_status()] of [requests]: an [HTTPError] for the
    client-error and server-error classes, nothing otherwise. *)
Definition raise_for_status (response : Response) : M unit :=
  if (400 <=? status_code response) && (status_code response <? 600)
  then raise (Requests (HTTPError (status_code response)))
  else ret tt.

(** [response.json()] *)
Definition response_json (response : Response) : M json :=
  match body response with
  | Some data => ret data
  | None => raise (Requests RequestsJSONDecodeError)
  end.

(** [Conversation()] *)
Definition Conversation_new : M Conversation :=
  u <- uuid4 ;;
  ret {| Conversation_id := Conversation_default_id u |}.

(** [x or default], for an optional string argument *)
Definition or_else (x : option string) (default : M string) : M string :=
  match x with
  | Some s => if String.eqb s EmptyString then default else ret s
  | None => default
  end.

(** [OpenFloorClient.__init__] (lines 24-31) *)
Definition __init__ (speaker_uri_arg service_url_arg : option string) : M unit :=
  speaker <- or_else speaker_uri_arg
               (u <- uuid4 ;; ret ("client:" ++ substring 0 8 (uuid_hex u))) ;;
  service <- or_else service_url_arg (ret "http://localhost:3000/") ;;
  u <- uuid4 ;;
  set_self {| speaker_uri := speaker;
              service_url := service;
              conversation_id := "conv_" ++ substring 0 8 (uuid_hex u) |}.

(** [OpenFloorClient._create_envelope] (lines 34-46) *)
Definition _create_envelope (events : list Event) : M Envelope :=
  conversation <- Conversation_new ;;
  self <- get_self ;;
  let sender := {| Sender_speakerUri := speaker_uri self |} in
  ret {| conversation := conversation; sender := sender; events := events |}.

(** [OpenFloorClient._send_envelope] (lines 49-75).  The payload goes to
    the remote end as the typed value; its JSON form is the package's
    business. *)
Definition _send_envelope (envelope : Envelope) (target_url : string) : M json :=
  let payload := {| openFloor := envelope |} in
  try_except
    (response <- requests_post target_url payload ;;
     _ <- raise_for_status response ;;
     response_json response)
    (fun e =>
       match e with
       | Requests cause => raise (NetworkError cause)
       | JSONDecodeError => raise InvalidJSONResponse
       | _ => raise e
       end).

(** *** Reading the manifests out of a response (lines 97-114) *)

(** The loop [for event in events] of [get_manifest]: [Some m] is
    [return m] from inside the loop, [None] is falling out of it. *)
Fixpoint scan_manifests (events : list json) : outcome (option json) :=
  match events with
  | [] => Ok None
  | event :: rest =>
      let* event_type := py_get event "eventType" JNull in
      if eq_str event_type "publishManifests" then
        let* parameters := py_get event "parameters" (JObj []) in
        let* manifests := py_get parameters "servicingManifests" (JArr []) in
        if truthy manifests then
          let* _ := py_len manifests in
          Ok (Some manifests)
        else scan_manifests rest
      else scan_manifests rest
  end.

(** The result is Python's [None] ([None] here) or a value. *)
Definition extract_manifests (response_data : json) : outcome (option json) :=
  let* wrapped := py_in "openFloor" response_data in
  if wrapped then
    let* envelope_data := py_getitem response_data "openFloor" in
    let* events := py_get envelope_data "events" (JArr []) in
    let* events := py_iter events in
    let* found := scan_manifests events in
    match found with
    | Some manifests => Ok (Some manifests)
    | None => Ok (Some (JArr []))
    end
  else Ok None.

(** [OpenFloorClient.get_manifest] (lines 78-118) *)
Definition get_manifest (agent_url : string) : M (option json) :=
  try_except
    (let get_manifests_event := GetManifestsEvent {| serviceUrl := agent_url |} in
     envelope <- _create_envelope [get_manifests_event] ;;
     response_data <- _send_envelope envelope agent_url ;;
     lift (extract_manifests response_data))
    (fun _ => ret None).

(** *** Reading the reply out of a response (lines 150-178) *)

(** ['key' in text_feature and text_feature['key']], as a condition *)
Definition present_and_truthy (key : string) (text_feature : json) : outcome bool :=
  let* present := py_in key text_feature in
  if present then
    let* v := py_getitem text_feature key in
    Ok (truthy v)
  else Ok false.

(** The generator
    [token.get('value', '') for token in tokens if 'value' in token] *)
Fixpoint token_values (tokens : list json) : outcome (list json) :=
  match tokens with
  | [] => Ok []
  | token :: rest =>
      let* has_value := py_in "value" token in
      if has_value then
        let* v := py_get token "value" (JStr EmptyString) in
        let* vs := token_values rest in
        Ok (v :: vs)
      else token_values rest
  end.

(** Lines 162-168: the three formats, tried in this order. *)
Definition extract_text (text_feature : json) : outcome json :=
  let* use_values := present_and_truthy "values" text_feature in
  if use_values then
    let* vs := py_getitem text_feature "values" in
    py_getitem0 vs
  else
    let* use_tokens := present_and_truthy "tokens" text_feature in
    if use_tokens then
      let* tokens := py_getitem text_feature "tokens" in
      let* tokens := py_iter tokens in
      let* vs := token_values tokens in
      let* text := py_join EmptyString vs in
      Ok (JStr text)
    else
      let* v := py_get text_feature "value" (JStr EmptyString) in
      Ok (JStr (py_str str_repr float_repr v)).

(** Lines 156-168: from an utterance event down to its text. *)
Definition utterance_text (event : json) : outcome json :=
  let* parameters := py_get event "parameters" (JObj []) in
  let* dialog_event := py_get parameters "dialogEvent" (JObj []) in
  let* features := py_get dialog_event "features" (JObj []) in
  let* text_feature := py_get features "text" (JObj []) in
  extract_text text_feature.

(** The loop [for event in events] of [send_message]. *)
Fixpoint scan_utterances (events : list json) : outcome (option json) :=
  match events with
  | [] => Ok None
  | event :: rest =>
      let* event_type := py_get event "eventType" JNull in
      if eq_str event_type "utterance" then
        let* response_text := utterance_text event in
        if truthy response_text then Ok (Some response_text)
        else scan_utterances rest
      else scan_utterances rest
  end.

Definition no_response : string := "Agent sent no response".

Definition extract_reply (response_data : json) : outcome (option json) :=
  let* wrapped := py_in "openFloor" response_data in
  if wrapped then
    let* envelope_data := py_getitem response_data "openFloor" in
    let* events := py_get envelope_data "events" (JArr []) in
    let* events := py_iter events in
    let* found := scan_utterances events in
    match found with
    | Some response_text => Ok (Some response_text)
    | None => Ok (Some (JStr no_response))
    end
  else Ok None.

(** [OpenFloorClient.send_message] (lines 121-182) *)
Definition send_message (agent_url message : string) : M (option json) :=
  try_except
    (let text_feature := {| values := [message] |} in
     self <- get_self ;;
     let dialog_event := {| speakerUri := speaker_uri self;
                            features := [("text", text_feature)] |} in
     let utterance_event :=
       UtteranceEvent dialog_event {| serviceUrl := agent_url |} in
     envelope <- _create_envelope [utterance_event] ;;
     response_data <- _send_envelope envelope agent_url ;;
     lift (extract_reply response_data))
    (fun _ => ret None).

(** *** [OpenFloorClient.format_manifest] (lines 185-212) *)

Definition nl : string := String (ascii_of_nat 10) EmptyString.

Definition fmt (x : json) : string := py_str str_repr float_repr x.

(** The inner loop [for j, capability in enumerate(capabilities)]; the
    result is the lines appended to [formatted]. *)
Fixpoint capability_lines (j : nat) (capabilities : list json)
  : outcome (list string) :=
  match capabilities with
  | [] => Ok []
  | capability :: rest =>
      let* keyphrases := py_get capability "keyphrases" (JArr []) in
      let* keyphrases := py_iter keyphrases in
      let* keywords := py_join ", " keyphrases in
      let keyword_line :=
        "    " ++ str_of_Z (Z.of_nat j + 1) ++ ". Keywords: " ++ keywords in
      let* descriptions := py_get capability "descriptions" (JArr []) in
      let* description_lines :=
        if truthy descriptions then
          let* first := py_getitem0 descriptions in
          Ok ["       Description: " ++ fmt first]
        else Ok [] in
      let* more := capability_lines (S j) rest in
      Ok (keyword_line :: description_lines ++ more)
  end.

Definition identification_lines (identification : json) : outcome (list string) :=
  if truthy identification then
    let* name := py_get identification "conversationalName" (JStr "Unknown") in
    let* organization := py_get identification "organization" (JStr "Unknown") in
    let* synopsis := py_get identification "synopsis" (JStr "No description") in
    let* speaker := py_get identification "speakerUri" (JStr "Unknown") in
    Ok ["  Name: " ++ fmt name;
        "  Organization: " ++ fmt organization;
        "  Description: " ++ fmt synopsis;
        "  Speaker URI: " ++ fmt speaker]
  else Ok [].

(** The outer loop [for i, manifest in enumerate(manifests)]. *)
Fixpoint manifest_lines (i : nat) (manifests : list json)
  : outcome (list string) :=
  match manifests with
  | [] => Ok []
  | manifest :: rest =>
      let header := nl ++ "📋 Manifest " ++ str_of_Z (Z.of_nat i + 1) ++ ":" in
      let* identification := py_get manifest "identification" (JObj []) in
      let* id_lines := identification_lines identification in
      let* capabilities := py_get manifest "capabilities" (JArr []) in
      let* cap_lines :=
        if truthy capabilities then
          let* count := py_len capabilities in
          let* capabilities := py_iter capabilities in
          let* lines := capability_lines 0 capabilities in
          Ok (("  Capabilities: " ++ str_of_Z count) :: lines)
        else Ok [] in
      let* more := manifest_lines (S i) rest in
      Ok (header :: id_lines ++ cap_lines ++ more)
  end.

Definition no_manifests : string := "No manifests available".

Definition format_manifest (manifests : json) : outcome string :=
  if negb (truthy manifests) then Ok no_manifests
  else
    let* manifests := py_iter manifests in
    let* formatted := manifest_lines 0 manifests in
    Ok (join nl formatted).
End Client.

(** ** Responses as an agent builds them, and a world for concrete runs *)

Module Wire.
Definition obj (fields : list (string * json)) : json := JObj fields.

(** An [utterance] event around a text feature. *)
Definition text_event (text_feature : json) : json :=
  obj [("eventType", JStr "utterance");
       ("parameters",
        obj [("dialogEvent",
              obj [("features", obj [("text", text_feature)])])])].

(** A [publishManifests] event around a manifest list. *)
Definition manifests_event (manifests : json) : json :=
  obj [("eventType", JStr "publishManifests");
       ("parameters", obj [("servicingManifests", manifests)])].

(** The wrapper around an event list. *)
Definition response (events : list json) : json :=
  obj [("openFloor", obj [("events", JArr events)])].
End Wire.

Module Samples.
Import Wire.

Definition plain_repr (s : string) : string := "'" ++ s ++ "'".
Definition no_float (f : float) : string := "float".

(** Uuids count up from a fixed value, a [Conversation()] gets the id
    ["conv:<uuid>"], and the agent answers every post alike. *)
Definition uuids (n : nat) : N := (0x1a2b3c4d000000000000000000000000 + N.of_nat n)%N.
Definition library_id (u : N) : string := "conv:" ++ uuid_str u.
Definition agent (status : Z) (data : option json)
  : nat -> string -> Payload -> post_outcome :=
  fun _ _ _ => PostReturns {| status_code := status; body := data |}.
Definition unreachable (e : RequestException)
  : nat -> string -> Payload -> post_outcome :=
  fun _ _ _ => PostRaises e.

Definition unset : OpenFloorClient :=
  {| speaker_uri := EmptyString;
     service_url := EmptyString;
     conversation_id := EmptyString |}.
Definition start : state :=
  {| this := unset; uuids_drawn := 0; posted := [] |}.
Definition session : state :=
  {| this := {| speaker_uri := "client:cafe0001";
                service_url := "http://localhost:3000/";
                conversation_id := "conv_cafe0002" |};
     uuids_drawn := 2;
     posted := [] |}.
Definition url : string := "http://agent.example/".
End Samples.

(** ** Vocabulary for the statements *)

(** What a session operation hands back when its body ends in [o]. *)
Definition absent_on_raise {A} (o : outcome (option A)) : option A :=
  match o with
  | Ok r => r
  | Raise _ => None
  end.

Definition error_status (r : Response) : bool :=
  (400 <=? status_code r) && (status_code r <? 600).

(** What [_send_envelope] makes of the answer of the remote end. *)
Definition exchange_result (po : post_outcome) : outcome json :=
  match po with
  | PostRaises e => Raise (NetworkError e)
  | PostReturns r =>
      if error_status r then Raise (NetworkError (HTTPError (status_code r)))
      else match body r with
           | Some data => Ok data
           | None => Raise (NetworkError RequestsJSONDecodeError)
           end
  end.

Definition is_object (x : json) : bool :=
  match x with JObj _ => true | _ => false end.

(** The event is an object whose [eventType] is [tag]. *)
Definition tagged (tag : string) (event : json) : bool :=
  match event with
  | JObj fields =>
      match dict_get "eventType" fields with
      | Some t => eq_str t tag
      | None => false
      end
  | _ => false
  end.

(** The inbound event list of a response that has the wrapper key. *)
Definition events_of (response_data : json) : option (list json) :=
  match response_data with
  | JObj fields =>
      match dict_get "openFloor" fields with
      | Some (JObj envelope_data) =>
          match dict_get "events" envelope_data with
          | Some (JArr events) => Some events
          | Some _ => None
          | None => Some []
          end
      | _ => None
      end
  | _ => None
  end.

(** The response has no top-level wrapper key. *)
Definition lacks_wrapper (response_data : json) : bool :=
  match response_data with
  | JObj fields => negb (dict_has "openFloor" fields)
  | _ => true
  end.

(** [parameters.servicingManifests] of an event, with the defaults. *)
Definition manifests_of (event : json) : outcome json :=
  let* parameters := py_get event "parameters" (JObj []) in
  py_get parameters "servicingManifests" (JArr []).

(** [d.get(key)] is missing or falsy. *)
Definition dict_truthy (key : string) (d : list (string * json)) : bool :=
  match dict_get key d with
  | Some v => truthy v
  | None => false
  end.

(** The text feature of an event, when every step down to it is an object. *)
Definition text_feature_of (event : json) : option json :=
  match event with
  | JObj fields =>
      match dict_get "parameters" fields with
      | Some (JObj parameters) =>
          match dict_get "dialogEvent" parameters with
          | Some (JObj dialog_event) =>
              match dict_get "features" dialog_event with
              | Some (JObj features) => dict_get "text" features
              | _ => None
              end
          | _ => None
          end
      | _ => None
      end
  | _ => None
  end.

(** The [value] strings of a token list, tokens without one left out. *)
Fixpoint token_strings (tokens : list (list (string * json))) : option (list string) :=
  match tokens with
  | [] => Some []
  | token :: rest =>
      match dict_get "value" token, token_strings rest with
      | Some (JStr s), Some ss => Some (s :: ss)
      | None, Some ss => Some ss
      | _, _ => None
      end
  end.


(** The envelope [_create_envelope] builds in state [st]. *)
Definition built_envelope (default_id : N -> string) (source : nat -> N)
  (st : state) (events : list Event) : Envelope :=
  {| conversation := {| Conversation_id := default_id (source (uuids_drawn st)) |};
     sender := {| Sender_speakerUri := speaker_uri (this st) |};
     events := events |}.

Definition manifest_request (default_id : N -> string) (source : nat -> N)
  (st : state) (agent_url : string) : Payload :=
  {| openFloor :=
       built_envelope default_id source st
         [GetManifestsEvent {| serviceUrl := agent_url |}] |}.

Definition utterance_request (default_id : N -> string) (source : nat -> N)
  (st : state) (agent_url message : string) : Payload :=
  {| openFloor :=
       built_envelope default_id source st
         [UtteranceEvent
            {| speakerUri := speaker_uri (this st);
               features := [("text", {| values := [message] |})] |}
            {| serviceUrl := agent_url |}] |}.

(** The state a session operation leaves behind. *)
Definition after_post (st : state) (agent_url : string) (payload : Payload) : state :=
  {| this := this st;
     uuids_drawn := S (uuids_drawn st);
     posted := posted st ++ [(agent_url, payload)] |}.

(** The exchange fails: the post raises, the status is an error status,
    or the body is not JSON. *)
Definition exchange_fails (po : post_outcome) : bool :=
  match po with
  | PostRaises _ => true
  | PostReturns r =>
      error_status r || match body r with Some _ => false | None => true end
  end.


(** An event the loop of [send_message] passes over: an object that is not
    an utterance, or an utterance whose text comes out falsy. *)
Definition silent (str_repr : string -> string) (float_repr : float -> string)
  (event : json) : bool :=
  is_object event &&
  (if tagged "utterance" event then
     match utterance_text str_repr float_repr event with
     | Ok text => negb (truthy text)
     | Raise _ => false
     end
   else true).

(** An event the loop of [get_manifest] passes over: an object that is not
    tagged [publishManifests], or one whose manifest list is falsy. *)
Definition without_manifests (event : json) : bool :=
  is_object event &&
  (if tagged "publishManifests" event then
     match manifests_of event with
     | Ok manifests => negb (truthy manifests)
     | Raise _ => false
     end
   else true).

(** An object that does not carry the tag. *)
Definition other_event (tag : string) (event : json) : bool :=
  is_object event && negb (tagged tag event).

(** What the remote end does with the post of [get_manifest], and with the
    post of [send_message], in state [st]. *)
Definition manifest_post (default_id : N -> string) (source : nat -> N)
  (remote : nat -> string -> Payload -> post_outcome)
  (st : state) (agent_url : string) : post_outcome :=
  remote (length (posted st)) agent_url
    (manifest_request default_id source st agent_url).

Definition message_post (default_id : N -> string) (source : nat -> N)
  (remote : nat -> string -> Payload -> post_outcome)
  (st : state) (agent_url message : string) : post_outcome :=
  remote (length (posted st)) agent_url
    (utterance_request default_id source st agent_url message).

(** A string of lower-case hexadecimal digits. *)
Definition is_hex_digit (c : ascii) : bool :=
  existsb (Ascii.eqb c) (list_ascii_of_string "0123456789abcdef").

Fixpoint all_hex (s : string) : bool :=
  match s with
  | EmptyString => true
  | String c rest => is_hex_digit c && all_hex rest
  end.

(** The argument of [__init__] is missing or falsy, so [or] takes the
    default. *)
Definition omitted (x : option string) : bool :=
  match x with
  | Some s => String.eqb s EmptyString
  | None => true
  end.

(** [str()] of the value is its [repr], which is never empty. *)
Definition rendered (v : json) : bool :=
  match v with
  | JStr _ | JFloat _ => false
  | _ => true
  end.

(** The header line of the manifest at position [i], counted from 0. *)
Definition manifest_header (i : nat) : string :=
  nl ++ "📋 Manifest " ++ str_of_Z (Z.of_nat i + 1) ++ ":".

(** ** The command-line interface ([cli_client.py])

    [input()] reads from a finite keyboard script whose end is the end of
    the input; what the interface itself prints is kept on a screen (the
    progress messages of the client are left out, as before).  The three
    [str] methods the interface applies to what was typed belong to the
    interpreter and are parameters. *)

Module CLI.

Inductive keyboard : Type :=
| Line (text : string)
| CtrlC.                       (* KeyboardInterrupt while [input()] waits *)

Inductive output : Type :=
| Printed (line : string)      (* print(line) *)
| Prompt (text : string).      (* the prompt of input(text) *)

(** The [OpenFloorCLI] object, the state its client runs in, and the
    screen. *)
Record cli_state :=
  { client : state;
    current_agent_url : option string;
    screen : list output }.

(** What gets out of a method other than by returning: an exception of the
    client code, or [sys.exit]. *)
Inductive escape : Type :=
| Uncaught (e : exn)
| SystemExit (code : Z).

Inductive finish : Type :=
| Returned
| Escaped (e : escape)
| Unfinished.                  (* the loop bound of the model ran out *)

Definition say (lines : list output) (w : cli_state) : cli_state :=
  {| client := client w;
     current_agent_url := current_agent_url w;
     screen := screen w ++ lines |}.

Definition with_client (st : state) (w : cli_state) : cli_state :=
  {| client := st;
     current_agent_url := current_agent_url w;
     screen := screen w |}.

(** [self.current_agent_url = agent_url] *)
Definition remember (agent_url : string) (w : cli_state) : cli_state :=
  {| client := client w;
     current_agent_url := Some agent_url;
     screen := screen w |}.

(** [s * n] *)
Fixpoint times (s : string) (n : nat) : string :=
  match n with
  | O => EmptyString
  | S n' => s ++ times s n'
  end.

(** [x in ['exit', 'quit', 'bye']] *)
Definition is_exit (word : string) : bool :=
  existsb (String.eqb word) ["exit"; "quit"; "bye"].

Section Interface.
Variable str_repr : string -> string.
Variable float_repr : float -> string.
Variable uuid4_source : nat -> N.
Variable Conversation_default_id : N -> string.
Variable remote : nat -> string -> Payload -> post_outcome.
(** [s.strip()], [s.lower()] and [s.split(None, 1)] *)
Variable strip : string -> string.
Variable lower : string -> string.
Variable split_once : string -> list string.

(** [OpenFloorClient()] *)
Local Abbreviation OpenFloorClient_new := (__init__ uuid4_source None None).

(** [OpenFloorCLI.__init__] (lines 11-13) *)
Definition __init__ (st : state) : cli_state :=
  {| client := snd (OpenFloorClient_new st);
     current_agent_url := None;
     screen := [] |}.

(** [OpenFloorCLI.print_banner] (lines 15-25) *)
Definition print_banner (w : cli_state) : cli_state :=
  say [Printed (times "=" 60);
       Printed "🤖 Open Floor Protocol CLI Client";
       Printed (times "=" 60);
       Printed "Commands:";
       Printed "  manifest <agent_url>  - Get agent capabilities";
       Printed "  chat <agent_url>      - Start a chat session";
       Printed "  help                  - Show this help";
       Printed "  quit                  - Exit the CLI";
       Printed (times "=" 60)] w.

(** [OpenFloorCLI.cmd_manifest] (lines 28-39) *)
Definition cmd_manifest (agent_url : string) (w : cli_state) : finish * cli_state :=
  match get_manifest uuid4_source Conversation_default_id remote agent_url (client w) with
  | (Raise e, st) => (Escaped (Uncaught e), with_client st w)
  | (Ok None, st) =>
      (Returned, say [Printed "❌ Failed to fetch manifest"] (with_client st w))
  | (Ok (Some manifests), st) =>
      match format_manifest str_repr float_repr manifests with
      | Raise e => (Escaped (Uncaught e), with_client st w)
      | Ok formatted_manifest =>
          (Returned,
           remember agent_url (say [Printed formatted_manifest] (with_client st w)))
      end
  end.

(** The loop [while True] of [cmd_chat] (lines 49-71); the second
    component is what is left of the keyboard script. *)
Fixpoint chat_loop (agent_url : string) (keys : list keyboard) (w : cli_state)
  : finish * list keyboard * cli_state :=
  let w := say [Prompt "You: "] w in
  match keys with
  | [] => (Returned, [], say [Printed (nl ++ "👋 Chat session ended")] w)
  | CtrlC :: rest =>
      (Returned, rest, say [Printed (nl ++ "👋 Chat session ended")] w)
  | Line text :: rest =>
      let user_input := strip text in
      if is_exit (lower user_input) then
        (Returned, rest, say [Printed "👋 Chat session ended"] w)
      else if String.eqb user_input EmptyString then chat_loop agent_url rest w
      else
        match send_message str_repr float_repr uuid4_source Conversation_default_id
                remote agent_url user_input (client w) with
        | (Raise e, st) => (Escaped (Uncaught e), rest, with_client st w)
        | (Ok response, st) =>
            let answered :=
              match response with
              | Some r => truthy r
              | None => false
              end in
            let line :=
              if answered then
                "Agent: " ++ match response with
                             | Some r => py_str str_repr float_repr r
                             | None => "None"
                             end
              else "❌ Failed to get response from agent" in
            chat_loop agent_url rest (say [Printed line] (with_client st w))
        end
  end.

(** [OpenFloorCLI.cmd_chat] (lines 42-71) *)
Definition cmd_chat (agent_url : string) (keys : list keyboard) (w : cli_state)
  : finish * list keyboard * cli_state :=
  let w := say [Printed ("🗣️ Starting chat with: " ++ agent_url);
                Printed ("Type 'exit' to end the chat session" ++ nl)] w in
  let w := remember agent_url w in
  chat_loop agent_url keys w.

(** Lines 95-101 and 104-110: the url to use when [arg] may be empty.
    [None] is the branch that prints the request for a url and goes on to
    the next command. *)
Definition choose_url (arg : string) (w : cli_state) : option (string * cli_state) :=
  if String.eqb arg EmptyString then
    match current_agent_url w with
    | Some last =>
        if String.eqb last EmptyString then None
        else Some (last, say [Printed ("Using last agent: " ++ last)] w)
    | None => None
    end
  else Some (arg, w).

(** The loop [while True] of [run_interactive] (lines 78-121).  Every turn
    takes at least one key, so a bound above the length of the script is
    never reached. *)
Fixpoint interactive_loop (bound : nat) (keys : list keyboard) (w : cli_state)
  : finish * list keyboard * cli_state :=
  match bound with
  | O => (Unfinished, keys, w)
  | S bound =>
      let w := say [Prompt (nl ++ "> ")] w in
      match keys with
      | [] => (Returned, [], say [Printed (nl ++ "👋 Goodbye!")] w)
      | CtrlC :: rest => (Returned, rest, say [Printed (nl ++ "👋 Goodbye!")] w)
      | Line text :: rest =>
          let command_line := strip text in
          if String.eqb command_line EmptyString then interactive_loop bound rest w
          else
            match split_once command_line with
            | [] => (Escaped (Uncaught IndexError), rest, w)
            | first :: more =>
                let command := lower first in
                let arg := match more with
                           | second :: _ => second
                           | [] => EmptyString
                           end in
                if is_exit command then
                  (Returned, rest, say [Printed "👋 Goodbye!"] w)
                else if String.eqb command "help" then
                  interactive_loop bound rest (print_banner w)
                else if String.eqb command "manifest" then
                  match choose_url arg w with
                  | None =>
                      interactive_loop bound rest
                        (say [Printed "❌ Please provide an agent URL"] w)
                  | Some (agent_url, w) =>
                      match cmd_manifest agent_url w with
                      | (Returned, w) => interactive_loop bound rest w
                      | (ended, w) => (ended, rest, w)
                      end
                  end
                else if String.eqb command "chat" then
                  match choose_url arg w with
                  | None =>
                      interactive_loop bound rest
                        (say [Printed "❌ Please provide an agent URL"] w)
                  | Some (agent_url, w) =>
                      match cmd_chat agent_url rest w with
                      | (Returned, rest, w) => interactive_loop bound rest w
                      | ended => ended
                      end
                  end
                else
                  interactive_loop bound rest
                    (say [Printed ("❌ Unknown command: " ++ command);
                          Printed "Type 'help' for available commands"] w)
            end
      end
  end.

(** [OpenFloorCLI.run_interactive] (lines 74-121) *)
Definition run_interactive (keys : list keyboard) (w : cli_state)
  : finish * list keyboard * cli_state :=
  interactive_loop (S (length keys)) keys (print_banner w).

(** [OpenFloorCLI.run_single_command] (lines 124-132), on [args.command]
    and [args.url] *)
Definition run_single_command (command agent_url : string)
  (keys : list keyboard) (w : cli_state) : finish * list keyboard * cli_state :=
  if String.eqb command "manifest" then
    let '(ended, w) := cmd_manifest agent_url w in (ended, keys, w)
  else if String.eqb command "chat" then cmd_chat agent_url keys w
  else
    (Escaped (SystemExit 1), keys,
     say [Printed ("❌ Unknown command: " ++ command)] w).
End Interface.

(** What a chat sends: the stripped lines typed before the exit word, the
    end of the input or Ctrl-C, the empty ones left out. *)
Fixpoint chat_messages (strip lower : string -> string) (keys : list keyboard)
  : list string :=
  match keys with
  | [] => []
  | CtrlC :: _ => []
  | Line text :: rest =>
      if is_exit (lower (strip text)) then []
      else if String.eqb (strip text) EmptyString then chat_messages strip lower rest
      else strip text :: chat_messages strip lower rest
  end.

(** The url and the text values of the utterances of a posted payload. *)
Definition utterance_values (event : Event) : list string :=
  match event with
  | UtteranceEvent dialog_event _ =>
      flat_map (fun feature => values (snd feature)) (features dialog_event)
  | GetManifestsEvent _ => []
  end.

Definition said (post : string * Payload) : string * list string :=
  (fst post, flat_map utterance_values (events (openFloor (snd post)))).

(** The argument of a command line, empty when there is none. *)
Definition argument_of (split_once : string -> list string) (command_line : string)
  : string :=
  match split_once command_line with
  | _ :: second :: _ => second
  | _ => EmptyString
  end.

Definition no_argument (strip : string -> string)
  (split_once : string -> list string) (key : keyboard) : bool :=
  match key with
  | Line text => String.eqb (argument_of split_once (strip text)) EmptyString
  | CtrlC => true
  end.

Definition has_url (w : cli_state) : bool :=
  match current_agent_url w with
  | Some last => negb (String.eqb last EmptyString)
  | None => false
  end.

(** Plain ASCII versions of the three [str] methods, for concrete runs. *)
Module AsciiStr.
Definition is_space (c : ascii) : bool :=
  let n := N_of_ascii c in ((n =? 32) || ((9 <=? n) && (n <=? 13)))%N.

Fixpoint lstrip (s : string) : string :=
  match s with
  | String c rest => if is_space c then lstrip rest else s
  | EmptyString => EmptyString
  end.

Fixpoint rstrip (s : string) : string :=
  match s with
  | EmptyString => EmptyString
  | String c rest =>
      match rstrip rest with
      | EmptyString => if is_space c then EmptyString else String c EmptyString
      | kept => String c kept
      end
  end.

Definition strip (s : string) : string := rstrip (lstrip s).

Definition lower_char (c : ascii) : ascii :=
  let n := N_of_ascii c in
  if ((65 <=? n) && (n <=? 90))%N then ascii_of_N (n + 32) else c.

Fixpoint lower (s : string) : string :=
  match s with
  | EmptyString => EmptyString
  | String c rest => String (lower_char c) (lower rest)
  end.

Fixpoint first_word (s : string) : string * string :=
  match s with
  | EmptyString => (EmptyString, EmptyString)
  | String c rest =>
      if is_space c then (EmptyString, s)
      else let '(word, tail) := first_word rest in (String c word, tail)
  end.

Definition split_once (s : string) : list string :=
  match lstrip s with
  | EmptyString => []
  | body =>
      let '(word, tail) := first_word body in
      match lstrip tail with
      | EmptyString => [word]
      | more => [word; more]
      end
  end.
End AsciiStr.
End CLI.

(** The leading 32 bits of a uuid, the part its first eight hexadecimal
    digits show. *)
Definition leading_bits (u : N) : N := ((u mod 2 ^ 128) / 2 ^ 96)%N.

(** The value of a hexadecimal digit. *)
Definition hex_value (c : ascii) : N :=
  let n := N_of_ascii c in
  if (n <? 58)%N then (n - 48)%N else (n - 87)%N.

(** A client at a terminal that has not remembered any url, for concrete
    runs. *)
Definition desk : CLI.cli_state :=
  {| CLI.client := Samples.session;
     CLI.current_agent_url := None;
     CLI.screen := [] |}.

(** ** Running the session operations *)

Section Runs.
Variable str_repr : string -> string.
Variable float_repr : float -> string.
Variable uuid4_source : nat -> N.
Variable Conversation_default_id : N -> string.
Variable remote : nat -> string -> Payload -> post_outcome.

Lemma _send_envelope_run (envelope : Envelope) (target_url : string) (st : state) :
  _send_envelope remote envelope target_url st =
    (exchange_result
       (remote (length (posted st)) target_url {| openFloor := envelope |}),
     {| this := this st;
        uuids_drawn := uuids_drawn st;
        posted := posted st ++ [(target_url, {| openFloor := envelope |})] |}).
Proof.
  unfold _send_envelope, try_except, bind, requests_post, exchange_result.
  destruct (remote _ _ _) as [e | r]; [reflexivity |].
  unfold raise_for_status, error_status.
  destruct ((400 <=? status_code r) && (status_code r <? 600)); [reflexivity |].
  unfold ret, response_json.
  destruct (body r); reflexivity.
Qed.

Lemma get_manifest_run (agent_url : string) (st : state) :
  let payload := manifest_request Conversation_default_id uuid4_source st agent_url in
  get_manifest uuid4_source Conversation_default_id remote agent_url st =
    (Ok (absent_on_raise
           (let* response_data :=
              exchange_result (remote (length (posted st)) agent_url payload) in
            extract_manifests response_data)),
     after_post st agent_url payload).
Proof.
  intros payload.
  unfold get_manifest, try_except, bind at 1.
  unfold _create_envelope, Conversation_new, bind, uuid4, ret, get_self. simpl.
  rewrite _send_envelope_run. simpl.
  fold (built_envelope Conversation_default_id uuid4_source st
          [GetManifestsEvent {| serviceUrl := agent_url |}]).
  fold (manifest_request Conversation_default_id uuid4_source st agent_url).
  fold payload.
  destruct (exchange_result _) as [data | e]; simpl; [| reflexivity].
  unfold lift.
  destruct (extract_manifests data); reflexivity.
Qed.

Lemma send_message_run (agent_url message : string) (st : state) :
  let payload :=
    utterance_request Conversation_default_id uuid4_source st agent_url message in
  send_message str_repr float_repr uuid4_source Conversation_default_id remote
    agent_url message st =
    (Ok (absent_on_raise
           (let* response_data :=
              exchange_result (remote (length (posted st)) agent_url payload) in
            extract_reply str_repr float_repr response_data)),
     after_post st agent_url payload).
Proof.
  intros payload.
  unfold send_message, try_except, bind at 1.
  unfold _create_envelope, Conversation_new, bind, uuid4, ret, get_self. simpl.
  rewrite _send_envelope_run. simpl.
  fold (built_envelope Conversation_default_id uuid4_source st
          [UtteranceEvent
             {| speakerUri := speaker_uri (this st);
                features := [("text", {| values := [message] |})] |}
             {| serviceUrl := agent_url |}]).
  fold (utterance_request Conversation_default_id uuid4_source st agent_url message).
  fold payload.
  destruct (exchange_result _) as [data | e]; simpl; [| reflexivity].
  unfold lift.
  destruct (extract_reply _ _ data); reflexivity.
Qed.

End Runs.

(** ** Reading responses *)

Section Reading.
Variable str_repr : string -> string.
Variable float_repr : float -> string.

Lemma event_type_test {A} (fields : list (string * json)) (tag : string)
  (yes no : outcome A) :
  (let* event_type := py_get (JObj fields) "eventType" JNull in
   if eq_str event_type tag then yes else no) =
  if tagged tag (JObj fields) then yes else no.
Proof.
  simpl. destruct (dict_get "eventType" fields); reflexivity.
Qed.

Lemma scan_manifests_cons (event : json) (rest : list json) :
  without_manifests event = true ->
  scan_manifests (event :: rest) = scan_manifests rest.
Proof.
  unfold without_manifests. destruct event as [| | | | | |fields]; try discriminate.
  intros H. cbn [is_object andb] in H.
  cbn [scan_manifests]. rewrite event_type_test.
  destruct (tagged "publishManifests" (JObj fields)); [| reflexivity].
  unfold manifests_of in H.
  destruct (py_get (JObj fields) "parameters" (JObj [])) as [parameters |];
    [| discriminate].
  cbn [obind] in *.
  destruct (py_get parameters "servicingManifests" (JArr [])) as [manifests |];
    [| discriminate].
  cbn [obind]. destruct (truthy manifests); [discriminate | reflexivity].
Qed.

Lemma scan_manifests_skip (pre rest : list json) :
  forallb without_manifests pre = true ->
  scan_manifests (pre ++ rest) = scan_manifests rest.
Proof.
  induction pre as [| event pre IH]; intros H; [reflexivity |].
  cbn [forallb] in H. apply andb_prop in H as [Hev Hpre].
  rewrite <- app_comm_cons, scan_manifests_cons by assumption.
  auto.
Qed.

Lemma scan_utterances_cons (event : json) (rest : list json) :
  silent str_repr float_repr event = true ->
  scan_utterances str_repr float_repr (event :: rest) =
  scan_utterances str_repr float_repr rest.
Proof.
  unfold silent. destruct event as [| | | | | |fields]; try discriminate.
  intros H. cbn [is_object andb] in H.
  cbn [scan_utterances]. rewrite event_type_test.
  destruct (tagged "utterance" (JObj fields)); [| reflexivity].
  destruct (utterance_text str_repr float_repr (JObj fields)) as [text |];
    [| discriminate].
  cbn [obind]. destruct (truthy text); [discriminate | reflexivity].
Qed.

Lemma scan_utterances_skip (pre rest : list json) :
  forallb (silent str_repr float_repr) pre = true ->
  scan_utterances str_repr float_repr (pre ++ rest) =
  scan_utterances str_repr float_repr rest.
Proof.
  induction pre as [| event pre IH]; intros H; [reflexivity |].
  cbn [forallb] in H. apply andb_prop in H as [Hev Hpre].
  rewrite <- app_comm_cons, scan_utterances_cons by assumption.
  auto.
Qed.

Lemma other_event_silent (event : json) :
  other_event "utterance" event = true -> silent str_repr float_repr event = true.
Proof.
  unfold other_event, silent. intros H. apply andb_prop in H as [-> Htag].
  destruct (tagged "utterance" event); [discriminate | reflexivity].
Qed.

Lemma other_event_without_manifests (event : json) :
  other_event "publishManifests" event = true -> without_manifests event = true.
Proof.
  unfold other_event, without_manifests. intros H. apply andb_prop in H as [-> Htag].
  destruct (tagged "publishManifests" event); [discriminate | reflexivity].
Qed.

Lemma forallb_impl {A} (f g : A -> bool) (l : list A) :
  (forall x, f x = true -> g x = true) -> forallb f l = true -> forallb g l = true.
Proof.
  intros Hfg. induction l as [| x l IH]; [reflexivity |].
  cbn [forallb]. intros H. apply andb_prop in H as [Hx Hl].
  rewrite (Hfg x Hx), (IH Hl). reflexivity.
Qed.

(** With the wrapper in place the two readers come down to their loops. *)
Lemma extract_manifests_events (data : json) (events : list json) :
  events_of data = Some events ->
  extract_manifests data =
  (let* found := scan_manifests events in
   match found with
   | Some manifests => Ok (Some manifests)
   | None => Ok (Some (JArr []))
   end).
Proof.
  unfold events_of, extract_manifests.
  destruct data as [| | | | | |fields]; try discriminate.
  cbn [py_in obind py_getitem]. unfold dict_has.
  destruct (dict_get "openFloor" fields) as [[| | | | | |envelope_data] |];
    try discriminate.
  cbn [obind py_get].
  destruct (dict_get "events" envelope_data) as [[| | | | |items|] |];
    try discriminate; intros [= <-]; reflexivity.
Qed.

Lemma extract_reply_events (data : json) (events : list json) :
  events_of data = Some events ->
  extract_reply str_repr float_repr data =
  (let* found := scan_utterances str_repr float_repr events in
   match found with
   | Some response_text => Ok (Some response_text)
   | None => Ok (Some (JStr no_response))
   end).
Proof.
  unfold events_of, extract_reply.
  destruct data as [| | | | | |fields]; try discriminate.
  cbn [py_in obind py_getitem]. unfold dict_has.
  destruct (dict_get "openFloor" fields) as [[| | | | | |envelope_data] |];
    try discriminate.
  cbn [obind py_get].
  destruct (dict_get "events" envelope_data) as [[| | | | |items|] |];
    try discriminate; intros [= <-]; reflexivity.
Qed.

(** Without the wrapper both readers end in [None], by the [else] branch
    or by an exception on the way. *)
Lemma extract_manifests_unwrapped (data : json) :
  lacks_wrapper data = true -> absent_on_raise (extract_manifests data) = None.
Proof.
  unfold extract_manifests.
  destruct data as [| | | | s | items | fields]; cbn [lacks_wrapper py_in obind];
    try reflexivity.
  - destruct (is_substring "openFloor" s); reflexivity.
  - destruct (existsb _ items); reflexivity.
  - intros H. apply negb_true_iff in H. rewrite H. reflexivity.
Qed.

Lemma extract_reply_unwrapped (data : json) :
  lacks_wrapper data = true ->
  absent_on_raise (extract_reply str_repr float_repr data) = None.
Proof.
  unfold extract_reply.
  destruct data as [| | | | s | items | fields]; cbn [lacks_wrapper py_in obind];
    try reflexivity.
  - destruct (is_substring "openFloor" s); reflexivity.
  - destruct (existsb _ items); reflexivity.
  - intros H. apply negb_true_iff in H. rewrite H. reflexivity.
Qed.

Lemma scan_manifests_none (events : list json) :
  forallb without_manifests events = true -> scan_manifests events = Ok None.
Proof.
  intros H. rewrite <- (app_nil_r events), scan_manifests_skip by assumption.
  reflexivity.
Qed.

Lemma scan_manifests_found (pre post : list json) (event manifests : json) (n : Z) :
  forallb without_manifests pre = true ->
  tagged "publishManifests" event = true ->
  manifests_of event = Ok manifests ->
  truthy manifests = true ->
  py_len manifests = Ok n ->
  scan_manifests (pre ++ event :: post) = Ok (Some manifests).
Proof.
  intros Hpre Htag Hman Htruthy Hlen. rewrite scan_manifests_skip by assumption.
  destruct event as [| | | | | |fields]; try discriminate.
  cbn [scan_manifests]. rewrite event_type_test, Htag.
  unfold manifests_of in Hman.
  destruct (py_get (JObj fields) "parameters" (JObj [])) as [parameters |];
    [| discriminate].
  cbn [obind] in *. rewrite Hman. cbn [obind]. rewrite Htruthy, Hlen. reflexivity.
Qed.

Lemma scan_utterances_none (events : list json) :
  forallb (silent str_repr float_repr) events = true ->
  scan_utterances str_repr float_repr events = Ok None.
Proof.
  intros H. rewrite <- (app_nil_r events), scan_utterances_skip by assumption.
  reflexivity.
Qed.

Lemma scan_utterances_found (pre post : list json) (event text : json) :
  forallb (silent str_repr float_repr) pre = true ->
  tagged "utterance" event = true ->
  utterance_text str_repr float_repr event = Ok text ->
  truthy text = true ->
  scan_utterances str_repr float_repr (pre ++ event :: post) = Ok (Some text).
Proof.
  intros Hpre Htag Htext Htruthy. rewrite scan_utterances_skip by assumption.
  destruct event as [| | | | | |fields]; try discriminate.
  cbn [scan_utterances]. rewrite event_type_test, Htag, Htext.
  cbn [obind]. rewrite Htruthy. reflexivity.
Qed.

(** Whatever the loop of [send_message] returns is truthy. *)
Lemma scan_utterances_truthy (events : list json) (text : json) :
  scan_utterances str_repr float_repr events = Ok (Some text) -> truthy text = true.
Proof.
  induction events as [| event rest IH]; [discriminate |].
  cbn [scan_utterances].
  destruct (py_get event "eventType" JNull) as [event_type |]; [| discriminate].
  cbn [obind]. destruct (eq_str event_type "utterance"); [| exact IH].
  destruct (utterance_text str_repr float_repr event) as [t |]; [| discriminate].
  cbn [obind]. destruct (truthy t) eqn:Ht; [| exact IH].
  intros [= <-]. exact Ht.
Qed.

(** *** The text feature *)

Lemma utterance_text_feature (event text_feature : json) :
  text_feature_of event = Some text_feature ->
  utterance_text str_repr float_repr event =
  extract_text str_repr float_repr text_feature.
Proof.
  unfold text_feature_of, utterance_text.
  destruct event as [| | | | | |fields]; try discriminate.
  cbn [py_get obind].
  destruct (dict_get "parameters" fields) as [[| | | | | |parameters] |];
    try discriminate.
  cbn [py_get obind].
  destruct (dict_get "dialogEvent" parameters) as [[| | | | | |dialog_event] |];
    try discriminate.
  cbn [py_get obind].
  destruct (dict_get "features" dialog_event) as [[| | | | | |features] |];
    try discriminate.
  cbn [py_get obind]. intros ->. reflexivity.
Qed.

Lemma present_and_truthy_object (key : string) (fields : list (string * json)) :
  present_and_truthy key (JObj fields) = Ok (dict_truthy key fields).
Proof.
  unfold present_and_truthy, dict_truthy. cbn [py_in obind py_getitem].
  unfold dict_has. destruct (dict_get key fields); reflexivity.
Qed.

Lemma extract_text_values (fields : list (string * json)) (v : json) (vs : list json) :
  dict_get "values" fields = Some (JArr (v :: vs)) ->
  extract_text str_repr float_repr (JObj fields) = Ok v.
Proof.
  intros H. unfold extract_text. rewrite present_and_truthy_object.
  unfold dict_truthy. rewrite H. cbn [truthy obind py_getitem]. rewrite H.
  reflexivity.
Qed.

Lemma token_values_strings (tokens : list (list (string * json))) (texts : list string) :
  token_strings tokens = Some texts ->
  token_values (map JObj tokens) = Ok (map JStr texts).
Proof.
  revert texts. induction tokens as [| token rest IH]; intros texts.
  - intros [= <-]. reflexivity.
  - cbn [token_strings map token_values py_in obind]. unfold dict_has.
    destruct (dict_get "value" token) as [v |] eqn:Hv.
    + destruct v; try discriminate.
      destruct (token_strings rest) as [ss |]; [| discriminate].
      intros [= <-]. cbn [py_get obind]. rewrite Hv, (IH ss eq_refl). reflexivity.
    + destruct (token_strings rest) as [ss |]; [| discriminate].
      intros [= <-]. apply IH. reflexivity.
Qed.

Lemma all_strings_map (texts : list string) : all_strings (map JStr texts) = Ok texts.
Proof.
  induction texts as [| t rest IH]; [reflexivity |].
  cbn [map all_strings]. rewrite IH. reflexivity.
Qed.

Lemma extract_text_tokens (fields : list (string * json))
  (tokens : list (list (string * json))) (texts : list string) :
  dict_truthy "values" fields = false ->
  dict_get "tokens" fields = Some (JArr (map JObj tokens)) ->
  tokens <> [] ->
  token_strings tokens = Some texts ->
  extract_text str_repr float_repr (JObj fields) = Ok (JStr (join EmptyString texts)).
Proof.
  intros Hvalues Htokens Hne Htexts. unfold extract_text.
  rewrite !present_and_truthy_object, Hvalues. cbn [obind].
  unfold dict_truthy. rewrite Htokens.
  destruct tokens as [| token rest]; [contradiction |].
  cbn [map truthy obind py_getitem]. rewrite Htokens.
  cbn [obind py_iter].
  change (JObj token :: map JObj rest) with (map JObj (token :: rest)).
  rewrite (token_values_strings _ _ Htexts). cbn [obind]. unfold py_join.
  rewrite all_strings_map. reflexivity.
Qed.

Lemma extract_text_value (fields : list (string * json)) :
  dict_truthy "values" fields = false ->
  dict_truthy "tokens" fields = false ->
  extract_text str_repr float_repr (JObj fields) =
  Ok (JStr (py_str str_repr float_repr
              (match dict_get "value" fields with
               | Some v => v
               | None => JStr EmptyString
               end))).
Proof.
  intros Hvalues Htokens. unfold extract_text.
  rewrite !present_and_truthy_object, Hvalues. cbn [obind]. rewrite Htokens.
  reflexivity.
Qed.

End Reading.

(** ** The claims *)

Section Claims.
Variable str_repr : string -> string.
Variable float_repr : float -> string.
Variable uuid4_source : nat -> N.
Variable Conversation_default_id : N -> string.

Local Abbreviation get_manifest' := (get_manifest uuid4_source Conversation_default_id).
Local Abbreviation send_message' :=
  (send_message str_repr float_repr uuid4_source Conversation_default_id).
Local Abbreviation manifest_post' := (manifest_post Conversation_default_id uuid4_source).
Local Abbreviation message_post' := (message_post Conversation_default_id uuid4_source).

Lemma get_manifest_delivered remote agent_url st data :
  exchange_result (manifest_post' remote st agent_url) = Ok data ->
  fst (get_manifest' remote agent_url st) =
  Ok (absent_on_raise (extract_manifests data)).
Proof.
  unfold manifest_post. intros H. rewrite get_manifest_run. cbn [fst].
  rewrite H. reflexivity.
Qed.

Lemma send_message_delivered remote agent_url message st data :
  exchange_result (message_post' remote st agent_url message) = Ok data ->
  fst (send_message' remote agent_url message st) =
  Ok (absent_on_raise (extract_reply str_repr float_repr data)).
Proof.
  unfold message_post. intros H. rewrite send_message_run. cbn [fst].
  rewrite H. reflexivity.
Qed.

Lemma exchange_fails_raises (po : post_outcome) :
  exchange_fails po = true ->
  exists cause, exchange_result po = Raise (NetworkError cause).
Proof.
  destruct po as [e | r]; cbn [exchange_fails exchange_result].
  - eauto.
  - destruct (error_status r); [eauto |].
    destruct (body r); [discriminate | eauto].
Qed.

Lemma send_message_found remote agent_url message st data
  (pre : list json) (event : json) (post : list json) (text : json) :
  exchange_result (message_post' remote st agent_url message) = Ok data ->
  events_of data = Some (pre ++ event :: post)%list ->
  forallb (silent str_repr float_repr) pre = true ->
  tagged "utterance" event = true ->
  utterance_text str_repr float_repr event = Ok text ->
  truthy text = true ->
  fst (send_message' remote agent_url message st) = Ok (Some text).
Proof.
  intros Hdata Hevents Hpre Htag Htext Htruthy.
  rewrite (send_message_delivered _ _ _ _ _ Hdata).
  rewrite (extract_reply_events _ _ _ _ Hevents).
  rewrite (scan_utterances_found _ _ _ _ _ _ Hpre Htag Htext Htruthy).
  reflexivity.
Qed.




(** C5: when the first utterance-tagged event of a response carries a
    text feature whose [values] list starts with a non-empty string [m],
    [send_message] returns exactly [m]. *)
Theorem C5_values_round_trip
  (remote : nat -> string -> Payload -> post_outcome)
  (agent_url message : string) (st : state) (data : json)
  (pre post : list json) (event : json) (text_feature : list (string * json))
  (m : string) (others : list json) :
  m <> EmptyString ->
  exchange_result (message_post' remote st agent_url message) = Ok data ->
  events_of data = Some (pre ++ event :: post)%list ->
  forallb (other_event "utterance") pre = true ->
  tagged "utterance" event = true ->
  text_feature_of event = Some (JObj text_feature) ->
  dict_get "values" text_feature = Some (JArr (JStr m :: others)) ->
  fst (send_message' remote agent_url message st) = Ok (Some (JStr m)).
Proof.
  intros Hm Hdata Hevents Hpre Htag Hfeature Hvalues.
  eapply send_message_found; try eassumption.
  - eapply forallb_impl; [apply other_event_silent | exact Hpre].
  - rewrite (utterance_text_feature _ _ _ _ Hfeature).
    apply (extract_text_values _ _ _ _ _ Hvalues).
  - cbn [truthy]. destruct m; [contradiction | reflexivity].
Qed.

(** C6: the text of a text feature comes from [values] when that list is
    non-empty, whatever else is there; otherwise from a non-empty [tokens]
    list, as the [value] strings of its tokens put together without a
    separator, tokens without a [value] left out; otherwise from the bare
    [value], as a string.  Tokens [a] and [b] give ["ab"]. *)
Theorem C6_three_tiers_in_order (text_feature : list (string * json)) :
  (forall v vs,
      dict_get "values" text_feature = Some (JArr (v :: vs)) ->
      extract_text str_repr float_repr (JObj text_feature) = Ok v) /\
  (forall tokens texts,
      dict_truthy "values" text_feature = false ->
      dict_get "tokens" text_feature = Some (JArr (map JObj tokens)) ->
      tokens <> [] ->
      token_strings tokens = Some texts ->
      extract_text str_repr float_repr (JObj text_feature) =
      Ok (JStr (join EmptyString texts))) /\
  (dict_truthy "values" text_feature = false ->
   dict_truthy "tokens" text_feature = false ->
   extract_text str_repr float_repr (JObj text_feature) =
   Ok (JStr (py_str str_repr float_repr
               (match dict_get "value" text_feature with
                | Some v => v
                | None => JStr EmptyString
                end)))) /\
  extract_text str_repr float_repr
    (JObj [("tokens", JArr [JObj [("value", JStr "a")]; JObj [("value", JStr "b")]])])
  = Ok (JStr "ab") /\
  extract_text str_repr float_repr
    (JObj [("tokens", JArr [JObj [("value", JStr "a")]; JObj [];
                            JObj [("value", JStr "b")]])])
  = Ok (JStr "ab").
Proof.
  split; [| split; [| split; [| split]]].
  - intros v vs. apply extract_text_values.
  - intros tokens texts. apply extract_text_tokens.
  - apply extract_text_value.
  - reflexivity.
  - reflexivity.
Qed.

(** C7: a response without the top-level wrapper key makes [get_manifest]
    and [send_message] return [None], whereas a response that has the
    wrapper but no matching event makes them return the empty list and the
    sentinel string. *)
Theorem C7_missing_wrapper_is_absent
  (remote : nat -> string -> Payload -> post_outcome)
  (agent_url message : string) (st : state) :
  (forall data,
      exchange_result (manifest_post' remote st agent_url) = Ok data ->
      lacks_wrapper data = true ->
      fst (get_manifest' remote agent_url st) = Ok None) /\
  (forall data,
      exchange_result (message_post' remote st agent_url message) = Ok data ->
      lacks_wrapper data = true ->
      fst (send_message' remote agent_url message st) = Ok None) /\
  (forall data events,
      exchange_result (manifest_post' remote st agent_url) = Ok data ->
      events_of data = Some events ->
      forallb (other_event "publishManifests") events = true ->
      fst (get_manifest' remote agent_url st) = Ok (Some (JArr []))) /\
  (forall data events,
      exchange_result (message_post' remote st agent_url message) = Ok data ->
      events_of data = Some events ->
      forallb (other_event "utterance") events = true ->
      fst (send_message' remote agent_url message st) =
      Ok (Some (JStr no_response))).
Proof.
  split; [| split; [| split]].
  - intros data Hdata Hlacks. rewrite (get_manifest_delivered _ _ _ _ Hdata).
    rewrite extract_manifests_unwrapped by assumption. reflexivity.
  - intros data Hdata Hlacks. rewrite (send_message_delivered _ _ _ _ _ Hdata).
    rewrite extract_reply_unwrapped by assumption. reflexivity.
  - intros data events Hdata Hevents Hother.
    rewrite (get_manifest_delivered _ _ _ _ Hdata).
    rewrite (extract_manifests_events _ _ Hevents).
    rewrite scan_manifests_none; [reflexivity |].
    eapply forallb_impl; [apply other_event_without_manifests | assumption].
  - intros data events Hdata Hevents Hother.
    rewrite (send_message_delivered _ _ _ _ _ Hdata).
    rewrite (extract_reply_events _ _ _ _ Hevents).
    rewrite scan_utterances_none; [reflexivity |].
    eapply forallb_impl; [apply other_event_silent | assumption].
Qed.


(** C9: [get_manifest] and [send_message] leave the client object as it
    was, so [speaker_uri], [conversation_id] and [service_url] keep their
    values, whatever the remote end does. *)
Theorem C9_identity_fields_unchanged
  (remote : nat -> string -> Payload -> post_outcome)
  (agent_url message : string) (st : state) :
  let after_manifest := snd (get_manifest' remote agent_url st) in
  let after_message := snd (send_message' remote agent_url message st) in
  (speaker_uri (this after_manifest) = speaker_uri (this st) /\
   conversation_id (this after_manifest) = conversation_id (this st) /\
   service_url (this after_manifest) = service_url (this st)) /\
  (speaker_uri (this after_message) = speaker_uri (this st) /\
   conversation_id (this after_message) = conversation_id (this st) /\
   service_url (this after_message) = service_url (this st)).
Proof.
  cbv zeta. rewrite get_manifest_run, send_message_run. cbn [snd after_post this].
  repeat split.
Qed.

(** Every result of [send_message] other than [None] is truthy; the empty
    string never comes back. *)
Lemma send_message_truthy remote agent_url message st (text : json) :
  fst (send_message' remote agent_url message st) = Ok (Some text) ->
  truthy text = true.
Proof.
  rewrite send_message_run. cbn [fst].
  destruct (exchange_result _) as [data |]; [| discriminate].
  cbn [obind]. unfold extract_reply.
  destruct (py_in "openFloor" data) as [[|] |]; try discriminate.
  cbn [obind].
  destruct (py_getitem data "openFloor") as [envelope_data |]; [| discriminate].
  cbn [obind].
  destruct (py_get envelope_data "events" (JArr [])) as [events |]; [| discriminate].
  cbn [obind].
  destruct (py_iter events) as [items |]; [| discriminate].
  cbn [obind].
  destruct (scan_utterances str_repr float_repr items) as [[found |] |] eqn:Hscan;
    cbn [obind absent_on_raise]; try discriminate.
  - intros [= <-]. eapply scan_utterances_truthy. exact Hscan.
  - intros [= <-]. reflexivity.
Qed.

(** The envelope does not depend on the session's [conversation_id]. *)
Lemma _create_envelope_ignores_conversation_id
  (events : list Event) (self : OpenFloorClient) (other_id : string)
  (drawn : nat) (log : list (string * Payload)) :
  fst (_create_envelope uuid4_source Conversation_default_id events
         {| this := {| speaker_uri := speaker_uri self;
                       service_url := service_url self;
                       conversation_id := other_id |};
            uuids_drawn := drawn; posted := log |}) =
  fst (_create_envelope uuid4_source Conversation_default_id events
         {| this := self; uuids_drawn := drawn; posted := log |}).
Proof. reflexivity. Qed.

End Claims.

(** ** Concrete runs *)

Import Wire.
Import Samples.








Lemma C5_witness :
  fst (send_message plain_repr no_float uuids library_id
         (agent 200
            (Some (response
                     [obj [("eventType", JStr "context")];
                      text_event (obj [("values", JArr [JStr "hello back"])])])))
         url "hello" session) =
  Ok (Some (JStr "hello back")).
Proof.
  refine (C5_values_round_trip plain_repr no_float uuids library_id
            (agent 200
               (Some (response
                        [obj [("eventType", JStr "context")];
                         text_event (obj [("values", JArr [JStr "hello back"])])])))
            url "hello" session _
            [obj [("eventType", JStr "context")]] []
            (text_event (obj [("values", JArr [JStr "hello back"])]))
            [("values", JArr [JStr "hello back"])] "hello back" [] _ _ _ _ _ _ _);
    first [reflexivity | discriminate].
Defined.

Lemma C6_witness :
  extract_text plain_repr no_float
    (obj [("values", JArr []);
          ("tokens", JArr [obj [("value", JStr "Hel")];
                           obj [("kind", JStr "pause")];
                           obj [("value", JStr "lo")]]);
          ("value", JStr "ignored")]) =
  Ok (JStr "Hello").
Proof.
  refine (proj1 (proj2
    (C6_three_tiers_in_order plain_repr no_float
       [("values", JArr []);
        ("tokens", JArr [obj [("value", JStr "Hel")];
                         obj [("kind", JStr "pause")];
                         obj [("value", JStr "lo")]]);
        ("value", JStr "ignored")]))
    [[("value", JStr "Hel")]; [("kind", JStr "pause")]; [("value", JStr "lo")]]
    ["Hel"; "lo"] _ _ _ _);
    first [reflexivity | discriminate].
Defined.

Lemma C7_witness :
  (fst (get_manifest uuids library_id
          (agent 200 (Some (obj [("error", JStr "not found")]))) url session) =
   Ok None /\
   fst (send_message plain_repr no_float uuids library_id
          (agent 200 (Some (obj [("error", JStr "not found")]))) url "hello" session) =
   Ok None) /\
  (fst (get_manifest uuids library_id
          (agent 200 (Some (response [obj [("eventType", JStr "context")]])))
          url session) =
   Ok (Some (JArr [])) /\
   fst (send_message plain_repr no_float uuids library_id
          (agent 200 (Some (response [obj [("eventType", JStr "context")]])))
          url "hello" session) =
   Ok (Some (JStr "Agent sent no response"))).
Proof.
  split.
  - destruct (C7_missing_wrapper_is_absent plain_repr no_float uuids library_id
                (agent 200 (Some (obj [("error", JStr "not found")])))
                url "hello" session) as (Hmanifest & Hmessage & _).
    split; [eapply Hmanifest | eapply Hmessage]; reflexivity.
  - destruct (C7_missing_wrapper_is_absent plain_repr no_float uuids library_id
                (agent 200 (Some (response [obj [("eventType", JStr "context")]])))
                url "hello" session) as (_ & _ & Hmanifest & Hmessage).
    split; [eapply Hmanifest | eapply Hmessage]; reflexivity.
Defined.



(** C10: an utterance whose [values] list starts with the number 42 makes
    [send_message] return that number, which is not a string. *)
Theorem C10_reply_can_be_a_number :
  fst (send_message plain_repr no_float uuids library_id
         (agent 200
            (Some (response [text_event (obj [("values", JArr [JInt 42])])])))
         url "hello" session) =
  Ok (Some (JInt 42)).
Proof. vm_compute. reflexivity. Qed.

(** ** Further properties of the client *)

Section Identifiers.
Variable uuid4_source : nat -> N.

Lemma hex_digit_is_hex (n : N) : is_hex_digit (hex_digit n) = true.
Proof.
  unfold hex_digit. remember (N.to_nat n) as k eqn:Hk. clear Hk.
  do 16 (destruct k as [| k]; [reflexivity |]).
  reflexivity.
Qed.

Lemma all_hex_app (a b : string) :
  all_hex a = true -> all_hex b = true -> all_hex (a ++ b) = true.
Proof.
  induction a as [| c a IH]; cbn [append all_hex]; [auto |].
  intros Ha Hb. apply andb_prop in Ha as [Hc Ha]. rewrite Hc, (IH Ha Hb).
  reflexivity.
Qed.

Lemma hex_of_all_hex (digits : nat) (n : N) : all_hex (hex_of digits n) = true.
Proof.
  revert n. induction digits as [| d IH]; intros n; [reflexivity |].
  cbn [hex_of]. apply all_hex_app; [apply IH |].
  cbn [all_hex]. rewrite hex_digit_is_hex. reflexivity.
Qed.

Lemma length_app_string (a b : string) :
  String.length (a ++ b) = (String.length a + String.length b)%nat.
Proof.
  induction a as [| c a IH]; cbn [append String.length]; [reflexivity |].
  rewrite IH. reflexivity.
Qed.

Lemma hex_of_length (digits : nat) (n : N) : String.length (hex_of digits n) = digits.
Proof.
  revert n. induction digits as [| d IH]; intros n; [reflexivity |].
  cbn [hex_of]. rewrite length_app_string, IH. cbn [String.length]. lia.
Qed.

Lemma substring_all_hex (s : string) (n m : nat) :
  all_hex s = true -> all_hex (substring n m s) = true.
Proof.
  revert n m. induction s as [| c s IH]; intros n m Hs.
  - destruct n, m; reflexivity.
  - cbn [all_hex] in Hs. apply andb_prop in Hs as [Hc Hs].
    destruct n as [| n]; destruct m as [| m]; cbn [substring all_hex]; auto.
    rewrite Hc. cbn [andb]. apply (IH 0%nat m Hs).
Qed.

Lemma substring_length (s : string) (n m : nat) :
  (n + m <= String.length s)%nat -> String.length (substring n m s) = m.
Proof.
  revert n m. induction s as [| c s IH]; intros n m Hlen; cbn [String.length] in Hlen.
  - assert (n = 0 /\ m = 0)%nat as [-> ->] by lia. reflexivity.
  - destruct n as [| n]; destruct m as [| m]; cbn [substring String.length].
    + reflexivity.
    + rewrite (IH 0%nat m) by lia. reflexivity.
    + apply IH. lia.
    + apply IH. lia.
Qed.

Lemma short_hex (u : N) :
  String.length (substring 0 8 (uuid_hex u)) = 8%nat /\
  all_hex (substring 0 8 (uuid_hex u)) = true.
Proof.
  unfold uuid_hex. split.
  - apply substring_length. rewrite hex_of_length. lia.
  - apply substring_all_hex, hex_of_all_hex.
Qed.

(** X1: [__init__] never fails and never posts; whatever its arguments,
    the conversation id it stores is ["conv_"] followed by eight
    lower-case hexadecimal digits, and a speaker id it has to make up is
    ["client:"] followed by eight such digits. *)
Theorem init_identifier_format
  (speaker_uri_arg service_url_arg : option string) (st : state) :
  let st' := snd (__init__ uuid4_source speaker_uri_arg service_url_arg st) in
  fst (__init__ uuid4_source speaker_uri_arg service_url_arg st) = Ok tt /\
  posted st' = posted st /\
  (exists h, conversation_id (this st') = "conv_" ++ h /\
             String.length h = 8%nat /\ all_hex h = true) /\
  (omitted speaker_uri_arg = true ->
   exists h, speaker_uri (this st') = "client:" ++ h /\
             String.length h = 8%nat /\ all_hex h = true).
Proof.
  cbv zeta. unfold __init__, bind, or_else, omitted.
  destruct speaker_uri_arg as [speaker |]; [destruct (String.eqb speaker EmptyString) |];
    (destruct service_url_arg as [service |];
     [destruct (String.eqb service EmptyString) |]);
    cbn; repeat split;
    try (eexists; split; [reflexivity | apply short_hex]);
    try discriminate;
    intros _; eexists; (split; [reflexivity | apply short_hex]).
Qed.

(** X2: [__init__] keeps a non-empty speaker or service argument as given
    and draws one uuid; an empty string counts as omitted, which gives the
    service url ["http://localhost:3000/"] and costs a second uuid for
    the speaker id. *)
Theorem init_arguments
  (speaker_uri_arg service_url_arg : option string) (st : state) :
  let st' := snd (__init__ uuid4_source speaker_uri_arg service_url_arg st) in
  (forall s, speaker_uri_arg = Some s -> s <> EmptyString ->
             speaker_uri (this st') = s /\ uuids_drawn st' = S (uuids_drawn st)) /\
  (omitted speaker_uri_arg = true ->
   speaker_uri (this st') =
     "client:" ++ substring 0 8 (uuid_hex (uuid4_source (uuids_drawn st))) /\
   conversation_id (this st') =
     "conv_" ++ substring 0 8 (uuid_hex (uuid4_source (S (uuids_drawn st)))) /\
   uuids_drawn st' = S (S (uuids_drawn st))) /\
  (forall s, service_url_arg = Some s -> s <> EmptyString ->
             service_url (this st') = s) /\
  (omitted service_url_arg = true ->
   service_url (this st') = "http://localhost:3000/").
Proof.
  cbv zeta. unfold __init__, bind, or_else, omitted.
  destruct speaker_uri_arg as [speaker |];
    [destruct (String.eqb_spec speaker EmptyString) |];
    (destruct service_url_arg as [service |];
     [destruct (String.eqb_spec service EmptyString) |]);
    cbn; repeat split; intros; repeat split;
    try discriminate; try congruence.
Qed.

End Identifiers.

Section Exchange.
Variable str_repr : string -> string.
Variable float_repr : float -> string.
Variable uuid4_source : nat -> N.
Variable Conversation_default_id : N -> string.
Variable remote : nat -> string -> Payload -> post_outcome.



End Exchange.

Section Robustness.
Variable str_repr : string -> string.
Variable float_repr : float -> string.
Variable uuid4_source : nat -> N.
Variable Conversation_default_id : N -> string.
Variable remote : nat -> string -> Payload -> post_outcome.

Local Abbreviation the_manifest agent_url st :=
  (fst (get_manifest uuid4_source Conversation_default_id remote agent_url st)).
Local Abbreviation the_reply agent_url message st :=
  (fst (send_message str_repr float_repr uuid4_source Conversation_default_id
          remote agent_url message st)).
Local Abbreviation manifest_answer agent_url st :=
  (exchange_result
     (manifest_post Conversation_default_id uuid4_source remote st agent_url)).
Local Abbreviation message_answer agent_url message st :=
  (exchange_result
     (message_post Conversation_default_id uuid4_source remote st agent_url message)).

Lemma the_manifest_is agent_url st data :
  manifest_answer agent_url st = Ok data ->
  the_manifest agent_url st = Ok (absent_on_raise (extract_manifests data)).
Proof. apply get_manifest_delivered. Qed.

Lemma the_reply_is agent_url message st data :
  message_answer agent_url message st = Ok data ->
  the_reply agent_url message st =
  Ok (absent_on_raise (extract_reply str_repr float_repr data)).
Proof. apply send_message_delivered. Qed.

Lemma py_chars_head (c : ascii) (rest : string) :
  exists tail chars, py_chars (String c rest) = String c tail :: chars.
Proof.
  cbn [py_chars]. destruct (starts_with_continuation rest);
    [destruct (py_chars rest) |]; eauto.
Qed.

Lemma scan_manifests_sized (events : list json) (manifests : json) :
  scan_manifests events = Ok (Some manifests) ->
  truthy manifests = true /\ exists n, py_len manifests = Ok n.
Proof.
  induction events as [| event rest IH]; [discriminate |].
  cbn [scan_manifests].
  destruct (py_get event "eventType" JNull) as [event_type |]; [| discriminate].
  cbn [obind]. destruct (eq_str event_type "publishManifests"); [| exact IH].
  destruct (py_get event "parameters" (JObj [])) as [parameters |]; [| discriminate].
  cbn [obind].
  destruct (py_get parameters "servicingManifests" (JArr [])) as [m |];
    [| discriminate].
  cbn [obind]. destruct (truthy m) eqn:Hm; [| exact IH].
  destruct (py_len m) as [n |] eqn:Hn; [| discriminate].
  cbn [obind]. intros [= <-]. eauto.
Qed.

(** X5: what [get_manifest] returns, if not [None], is the empty list or a
    truthy value that has a length (a list, a string or an object); it is
    never a number, a boolean or null. *)
Theorem get_manifest_result_is_sized (agent_url : string) (st : state) (result : json) :
  the_manifest agent_url st = Ok (Some result) ->
  result = JArr [] \/
  (truthy result = true /\
   match result with JArr _ | JStr _ | JObj _ => True | _ => False end).
Proof.
  rewrite get_manifest_run. cbn [fst].
  destruct (exchange_result _) as [data |]; [| discriminate].
  cbn [obind]. unfold extract_manifests.
  destruct (py_in "openFloor" data) as [[|] |]; try discriminate.
  cbn [obind].
  destruct (py_getitem data "openFloor") as [envelope_data |]; [| discriminate].
  cbn [obind].
  destruct (py_get envelope_data "events" (JArr [])) as [events |]; [| discriminate].
  cbn [obind].
  destruct (py_iter events) as [items |]; [| discriminate].
  cbn [obind].
  destruct (scan_manifests items) as [[found |] |] eqn:Hscan;
    cbn [obind absent_on_raise]; try discriminate.
  - intros [= <-]. right.
    destruct (scan_manifests_sized _ _ Hscan) as [Htruthy [n Hn]].
    split; [exact Htruthy |]. destruct found; try discriminate; exact I.
  - intros [= <-]. left. reflexivity.
Qed.

(** X6: when the first [publishManifests] event with a truthy
    [servicingManifests] holds something without a length there (a
    non-zero number or [true]), taking its [len] for the progress message
    raises and [get_manifest] returns [None], whatever follows. *)
Theorem unsized_manifests_are_absent
  (agent_url : string) (st : state) (data : json)
  (pre post : list json) (event manifests : json) :
  manifest_answer agent_url st = Ok data ->
  events_of data = Some (pre ++ event :: post)%list ->
  forallb without_manifests pre = true ->
  tagged "publishManifests" event = true ->
  manifests_of event = Ok manifests ->
  truthy manifests = true ->
  py_len manifests = Raise TypeError ->
  the_manifest agent_url st = Ok None.
Proof.
  intros Hdata Hevents Hpre Htag Hman Htruthy Hlen.
  rewrite (the_manifest_is _ _ _ Hdata), (extract_manifests_events _ _ Hevents).
  rewrite scan_manifests_skip by assumption.
  destruct event as [| | | | | |fields]; try discriminate.
  cbn [scan_manifests]. rewrite event_type_test, Htag.
  unfold manifests_of in Hman.
  destruct (py_get (JObj fields) "parameters" (JObj [])) as [parameters |];
    [| discriminate].
  cbn [obind] in *. rewrite Hman. cbn [obind]. rewrite Htruthy, Hlen. reflexivity.
Qed.

(** X7: an element of the event list that is not an object stops either
    loop with an exception as soon as it is reached, so both operations
    return [None] even when a well-formed matching event comes after it. *)
Theorem malformed_event_is_absent
  (agent_url message : string) (st : state) :
  (forall data (pre post : list json) x,
      manifest_answer agent_url st = Ok data ->
      events_of data = Some (pre ++ x :: post)%list ->
      forallb without_manifests pre = true ->
      is_object x = false ->
      the_manifest agent_url st = Ok None) /\
  (forall data (pre post : list json) x,
      message_answer agent_url message st = Ok data ->
      events_of data = Some (pre ++ x :: post)%list ->
      forallb (silent str_repr float_repr) pre = true ->
      is_object x = false ->
      the_reply agent_url message st = Ok None).
Proof.
  split; intros data pre post x Hdata Hevents Hpre Hx.
  - rewrite (the_manifest_is _ _ _ Hdata), (extract_manifests_events _ _ Hevents).
    rewrite scan_manifests_skip by assumption.
    destruct x; try discriminate; reflexivity.
  - rewrite (the_reply_is _ _ _ _ Hdata), (extract_reply_events _ _ _ _ Hevents).
    rewrite scan_utterances_skip by assumption.
    destruct x; try discriminate; reflexivity.
Qed.

(** X8: a wrapper key whose value is not an object, or whose [events] are
    not a list, makes both operations return [None]; the exceptions are an
    [events] value that is the empty string or the empty object, which
    read as no events at all. *)
Theorem malformed_wrapper_is_absent
  (agent_url message : string) (st : state)
  (data_m data_r : json) (fields_m fields_r : list (string * json)) :
  manifest_answer agent_url st = Ok data_m ->
  message_answer agent_url message st = Ok data_r ->
  data_m = JObj fields_m ->
  data_r = JObj fields_r ->
  (forall v, dict_get "openFloor" fields_m = Some v -> is_object v = false ->
             the_manifest agent_url st = Ok None) /\
  (forall v, dict_get "openFloor" fields_r = Some v -> is_object v = false ->
             the_reply agent_url message st = Ok None) /\
  (forall envelope_data v,
      dict_get "openFloor" fields_m = Some (JObj envelope_data) ->
      dict_get "events" envelope_data = Some v ->
      match v with JArr _ => False | _ => True end ->
      the_manifest agent_url st =
      Ok (match v with
          | JStr EmptyString | JObj [] => Some (JArr [])
          | _ => None
          end)) /\
  (forall envelope_data v,
      dict_get "openFloor" fields_r = Some (JObj envelope_data) ->
      dict_get "events" envelope_data = Some v ->
      match v with JArr _ => False | _ => True end ->
      the_reply agent_url message st =
      Ok (match v with
          | JStr EmptyString | JObj [] => Some (JStr no_response)
          | _ => None
          end)).
Proof.
  intros Hm Hr -> ->.
  rewrite (the_manifest_is _ _ _ Hm), (the_reply_is _ _ _ _ Hr).
  unfold extract_manifests, extract_reply.
  cbn [py_in obind py_getitem]. unfold dict_has.
  split; [| split; [| split]].
  - intros v -> Hv. cbn [obind]. destruct v; try discriminate; reflexivity.
  - intros v -> Hv. cbn [obind]. destruct v; try discriminate; reflexivity.
  - intros envelope_data v -> Hevents Hv. cbn [obind py_get]. rewrite Hevents.
    destruct v as [| | | | s | items | fs]; try contradiction; try reflexivity.
    + destruct s as [| c rest]; [reflexivity |].
      cbn [obind py_iter]. destruct (py_chars_head c rest) as (tail & chars & ->).
      reflexivity.
    + destruct fs as [| [k w] fs]; reflexivity.
  - intros envelope_data v -> Hevents Hv. cbn [obind py_get]. rewrite Hevents.
    destruct v as [| | | | s | items | fs]; try contradiction; try reflexivity.
    + destruct s as [| c rest]; [reflexivity |].
      cbn [obind py_iter]. destruct (py_chars_head c rest) as (tail & chars & ->).
      reflexivity.
    + destruct fs as [| [k w] fs]; reflexivity.
Qed.

End Robustness.

Section Replies.
Variable str_repr : string -> string.
Variable float_repr : float -> string.
Variable uuid4_source : nat -> N.
Variable Conversation_default_id : N -> string.
Variable remote : nat -> string -> Payload -> post_outcome.

Local Abbreviation the_reply agent_url message st :=
  (fst (send_message str_repr float_repr uuid4_source Conversation_default_id
          remote agent_url message st)).
Local Abbreviation message_answer agent_url message st :=
  (exchange_result
     (message_post Conversation_default_id uuid4_source remote st agent_url message)).
Local Abbreviation text_of := (extract_text str_repr float_repr).

(** The reply when the scan reaches an utterance whose text feature is
    [text_feature]. *)
Lemma reply_from_feature agent_url message st data
  (pre post : list json) (event text_feature text : json) :
  message_answer agent_url message st = Ok data ->
  events_of data = Some (pre ++ event :: post)%list ->
  forallb (other_event "utterance") pre = true ->
  tagged "utterance" event = true ->
  text_feature_of event = Some text_feature ->
  text_of text_feature = Ok text ->
  truthy text = true ->
  the_reply agent_url message st = Ok (Some text).
Proof.
  intros Hdata Hevents Hpre Htag Hfeature Htext Htruthy.
  eapply send_message_found; try eassumption.
  - eapply forallb_impl; [apply other_event_silent | exact Hpre].
  - rewrite (utterance_text_feature _ _ _ _ Hfeature). exact Htext.
Qed.

Lemma absent_from_feature agent_url message st data
  (pre post : list json) (event text_feature : json) (e : exn) :
  message_answer agent_url message st = Ok data ->
  events_of data = Some (pre ++ event :: post)%list ->
  forallb (other_event "utterance") pre = true ->
  tagged "utterance" event = true ->
  text_feature_of event = Some text_feature ->
  text_of text_feature = Raise e ->
  the_reply agent_url message st = Ok None.
Proof.
  intros Hdata Hevents Hpre Htag Hfeature Htext.
  rewrite (send_message_delivered _ _ _ _ _ _ _ _ _ Hdata).
  rewrite (extract_reply_events _ _ _ _ Hevents).
  rewrite scan_utterances_skip
    by (eapply forallb_impl; [apply other_event_silent | exact Hpre]).
  destruct event as [| | | | | |fields]; try discriminate.
  cbn [scan_utterances]. rewrite event_type_test, Htag.
  rewrite (utterance_text_feature _ _ _ _ Hfeature), Htext. reflexivity.
Qed.

(** X9: when [values] holds a non-empty string instead of a list, the
    reply is the first character of that string alone. *)
Theorem string_values_give_first_character
  (agent_url message : string) (st : state) (data : json)
  (pre post : list json) (event : json) (text_feature : list (string * json))
  (c : ascii) (rest : string) :
  message_answer agent_url message st = Ok data ->
  events_of data = Some (pre ++ event :: post)%list ->
  forallb (other_event "utterance") pre = true ->
  tagged "utterance" event = true ->
  text_feature_of event = Some (JObj text_feature) ->
  dict_get "values" text_feature = Some (JStr (String c rest)) ->
  exists tail chars,
    py_chars (String c rest) = String c tail :: chars /\
    the_reply agent_url message st = Ok (Some (JStr (String c tail))).
Proof.
  intros Hdata Hevents Hpre Htag Hfeature Hvalues.
  destruct (py_chars_head c rest) as (tail & chars & Hchars).
  exists tail, chars. split; [exact Hchars |].
  eapply reply_from_feature; try eassumption; [| reflexivity].
  unfold extract_text. rewrite present_and_truthy_object.
  unfold dict_truthy. rewrite Hvalues. cbn [truthy String.eqb negb obind py_getitem].
  rewrite Hvalues. cbn [obind py_getitem0]. rewrite Hchars. reflexivity.
Qed.

Lemma token_values_objects (tokens : list (list (string * json))) :
  exists vs, token_values (map JObj tokens) = Ok vs.
Proof.
  induction tokens as [| token rest [vs IH]]; [eexists; reflexivity |].
  cbn [map token_values py_in obind]. destruct (dict_has "value" token).
  - cbn [py_get obind]. rewrite IH. cbn [obind]. eauto.
  - eauto.
Qed.

Lemma token_values_not_strings (tokens : list (list (string * json))) :
  token_strings tokens = None ->
  (let* vs := token_values (map JObj tokens) in all_strings vs) = Raise TypeError.
Proof.
  induction tokens as [| token rest IH]; [discriminate |].
  cbn [token_strings map token_values py_in obind]. unfold dict_has.
  destruct (token_values_objects rest) as [vs Hvs].
  destruct (dict_get "value" token) as [v |] eqn:Hv.
  - cbn [py_get obind]. rewrite Hv, Hvs. cbn [obind all_strings].
    destruct v; try reflexivity.
    destruct (token_strings rest); [discriminate |].
    intros _. rewrite Hvs in IH. cbn [obind] in IH. rewrite (IH eq_refl).
    reflexivity.
  - destruct (token_strings rest); [discriminate |]. intros _. apply IH. reflexivity.
Qed.

(** X10: a token whose [value] is not a string breaks the join, so when
    the scan reaches such an utterance [send_message] returns [None]
    instead of the text of the other tokens or of a later utterance. *)
Theorem non_string_token_is_absent
  (agent_url message : string) (st : state) (data : json)
  (pre post : list json) (event : json) (text_feature : list (string * json))
  (tokens : list (list (string * json))) :
  message_answer agent_url message st = Ok data ->
  events_of data = Some (pre ++ event :: post)%list ->
  forallb (other_event "utterance") pre = true ->
  tagged "utterance" event = true ->
  text_feature_of event = Some (JObj text_feature) ->
  dict_truthy "values" text_feature = false ->
  dict_get "tokens" text_feature = Some (JArr (map JObj tokens)) ->
  token_strings tokens = None ->
  the_reply agent_url message st = Ok None.
Proof.
  intros Hdata Hevents Hpre Htag Hfeature Hvalues Htokens Hbad.
  eapply absent_from_feature with (e := TypeError); try eassumption.
  unfold extract_text. rewrite !present_and_truthy_object, Hvalues. cbn [obind].
  unfold dict_truthy. rewrite Htokens.
  destruct tokens as [| token rest]; [discriminate |].
  cbn [map truthy obind py_getitem]. rewrite Htokens. cbn [obind py_iter].
  change (JObj token :: map JObj rest) with (map JObj (token :: rest)).
  pose proof (token_values_not_strings _ Hbad) as Hjoin.
  destruct (token_values_objects (token :: rest)) as [vs Hvs].
  rewrite Hvs in *. cbn [obind] in *. unfold py_join. rewrite Hjoin. reflexivity.
Qed.

Lemma str_of_Z_not_empty (z : Z) : str_of_Z z <> EmptyString.
Proof.
  unfold str_of_Z, NilZero.string_of_int.
  destruct (Z.to_int z) as [d | d]; [| discriminate].
  destruct d; discriminate.
Qed.

Lemma rendered_not_empty (v : json) :
  rendered v = true -> py_str str_repr float_repr v <> EmptyString.
Proof.
  destruct v as [| [|] | z | | | |]; try discriminate; intros _;
    try (cbn; discriminate).
  apply str_of_Z_not_empty.
Qed.

(** X11: with neither [values] nor [tokens] to use, a bare [value] that is
    not a string is shown the way Python prints it, so [null] comes back
    as the reply "None", [true] as "True" and a number as its digits. *)
Theorem bare_value_is_rendered
  (agent_url message : string) (st : state) (data : json)
  (pre post : list json) (event : json) (text_feature : list (string * json))
  (v : json) :
  message_answer agent_url message st = Ok data ->
  events_of data = Some (pre ++ event :: post)%list ->
  forallb (other_event "utterance") pre = true ->
  tagged "utterance" event = true ->
  text_feature_of event = Some (JObj text_feature) ->
  dict_truthy "values" text_feature = false ->
  dict_truthy "tokens" text_feature = false ->
  dict_get "value" text_feature = Some v ->
  rendered v = true ->
  the_reply agent_url message st = Ok (Some (JStr (py_repr str_repr float_repr v))) /\
  (v = JNull -> the_reply agent_url message st = Ok (Some (JStr "None"))) /\
  (v = JBool true -> the_reply agent_url message st = Ok (Some (JStr "True"))) /\
  (v = JBool false -> the_reply agent_url message st = Ok (Some (JStr "False"))) /\
  (forall z, v = JInt z ->
             the_reply agent_url message st = Ok (Some (JStr (str_of_Z z)))).
Proof.
  intros Hdata Hevents Hpre Htag Hfeature Hvalues Htokens Hvalue Hrendered.
  assert (Hreply : the_reply agent_url message st =
                   Ok (Some (JStr (py_str str_repr float_repr v)))).
  { eapply reply_from_feature; try eassumption.
    - rewrite extract_text_value by assumption. rewrite Hvalue. reflexivity.
    - cbn [truthy]. pose proof (rendered_not_empty v Hrendered) as Hne.
      destruct (py_str str_repr float_repr v); [contradiction | reflexivity]. }
  split; [| repeat split; intros; subst v; exact Hreply].
  rewrite Hreply. destruct v; try discriminate; reflexivity.
Qed.

(** X12: an utterance event that lacks [parameters], or below it
    [dialogEvent], [features] or [text], or whose text feature has none of
    the three keys, yields the empty text, and the loop passes over it. *)
Theorem utterance_without_text_is_passed_over (fields : list (string * json)) :
  tagged "utterance" (JObj fields) = true ->
  (dict_get "parameters" fields = None \/
   (exists parameters,
       dict_get "parameters" fields = Some (JObj parameters) /\
       (dict_get "dialogEvent" parameters = None \/
        exists dialog_event,
          dict_get "dialogEvent" parameters = Some (JObj dialog_event) /\
          (dict_get "features" dialog_event = None \/
           exists features,
             dict_get "features" dialog_event = Some (JObj features) /\
             (dict_get "text" features = None \/
              exists text_feature,
                dict_get "text" features = Some (JObj text_feature) /\
                dict_get "values" text_feature = None /\
                dict_get "tokens" text_feature = None /\
                dict_get "value" text_feature = None))))) ->
  utterance_text str_repr float_repr (JObj fields) = Ok (JStr EmptyString) /\
  forall rest,
    scan_utterances str_repr float_repr (JObj fields :: rest) =
    scan_utterances str_repr float_repr rest.
Proof.
  intros Htag Hshape.
  assert (Htext : utterance_text str_repr float_repr (JObj fields) =
                  Ok (JStr EmptyString)).
  { unfold utterance_text. cbn [py_get obind].
    destruct Hshape as [-> | (parameters & -> & Hshape)]; [reflexivity |].
    cbn [py_get obind].
    destruct Hshape as [-> | (dialog_event & -> & Hshape)]; [reflexivity |].
    cbn [py_get obind].
    destruct Hshape as [-> | (features & -> & Hshape)]; [reflexivity |].
    cbn [py_get obind].
    destruct Hshape as [-> | (text_feature & -> & Hvalues & Htokens & Hvalue)];
      [reflexivity |].
    unfold extract_text. rewrite !present_and_truthy_object.
    unfold dict_truthy. rewrite Hvalues, Htokens. cbn [obind py_get].
    rewrite Hvalue. reflexivity. }
  split; [exact Htext |].
  intros rest. apply scan_utterances_cons. unfold silent.
  cbn [is_object andb]. rewrite Htag, Htext. reflexivity.
Qed.

(** X13: whatever [send_message] returns, if not [None], is truthy: never
    the empty string, null, [false], zero, or an empty list or object. *)
Theorem send_message_result_is_truthy
  (agent_url message : string) (st : state) (result : json) :
  the_reply agent_url message st = Ok (Some result) ->
  truthy result = true /\
  result <> JStr EmptyString /\ result <> JNull /\ result <> JBool false /\
  result <> JInt 0 /\ result <> JArr [] /\ result <> JObj [].
Proof.
  intros Hreply.
  assert (Htruthy : truthy result = true).
  { revert Hreply. rewrite send_message_run. cbn [fst].
    destruct (exchange_result _) as [data |]; [| discriminate].
    cbn [obind]. unfold extract_reply.
    destruct (py_in "openFloor" data) as [[|] |]; try discriminate.
    cbn [obind].
    destruct (py_getitem data "openFloor") as [envelope_data |]; [| discriminate].
    cbn [obind].
    destruct (py_get envelope_data "events" (JArr [])) as [events |];
      [| discriminate].
    cbn [obind].
    destruct (py_iter events) as [items |]; [| discriminate].
    cbn [obind].
    destruct (scan_utterances str_repr float_repr items) as [[found |] |] eqn:Hscan;
      cbn [obind absent_on_raise]; try discriminate.
    - intros [= <-]. eapply scan_utterances_truthy. exact Hscan.
    - intros [= <-]. reflexivity. }
  split; [exact Htruthy |].
  repeat split; intros ->; discriminate.
Qed.

End Replies.

Section Formatting.
Variable str_repr : string -> string.
Variable float_repr : float -> string.
Variable uuid4_source : nat -> N.
Variable Conversation_default_id : N -> string.
Variable remote : nat -> string -> Payload -> post_outcome.

Local Abbreviation show := (format_manifest str_repr float_repr).
Local Abbreviation block := (manifest_lines str_repr float_repr).
Local Abbreviation capability_block := (capability_lines str_repr float_repr).


Lemma manifest_lines_headers (ms : list json) :
  forall i lines,
    block i ms = Ok lines ->
    forall k, (k < length ms)%nat -> In (manifest_header (i + k)) lines.
Proof.
  induction ms as [| m rest IH]; intros i lines Hlines k Hk;
    [cbn [length] in Hk; lia |].
  cbn [manifest_lines] in Hlines.
  destruct (py_get m "identification" (JObj [])) as [identification |];
    [| discriminate].
  cbn [obind] in Hlines.
  destruct (identification_lines str_repr float_repr identification) as [id_lines |];
    [| discriminate].
  cbn [obind] in Hlines.
  destruct (py_get m "capabilities" (JArr [])) as [capabilities |]; [| discriminate].
  cbn [obind] in Hlines.
  match type of Hlines with
  | obind ?c _ = _ => destruct c as [cap_lines |]; [| discriminate]
  end.
  cbn [obind] in Hlines.
  destruct (block (S i) rest) as [more |] eqn:Hmore; [| discriminate].
  cbn [obind] in Hlines. injection Hlines as <-.
  destruct k as [| k].
  - left. unfold manifest_header. rewrite Nat.add_0_r. reflexivity.
  - right. apply in_or_app. right. apply in_or_app. right.
    replace (i + S k)%nat with (S i + k)%nat by lia.
    apply (IH (S i) more Hmore). cbn [length] in Hk. lia.
Qed.

(** X15: when [format_manifest] succeeds on a non-empty list, the text is
    its lines joined by newlines, it opens with the header of manifest 1,
    and every manifest of the list has its header line, numbered by its
    position counted from 1. *)
Theorem manifests_are_numbered_from_one (manifests : list json) (text : string) :
  manifests <> [] ->
  show (JArr manifests) = Ok text ->
  exists lines,
    text = join nl lines /\
    hd EmptyString lines = manifest_header 0 /\
    forall k, (k < length manifests)%nat -> In (manifest_header k) lines.
Proof.
  intros Hne. unfold format_manifest.
  destruct manifests as [| m rest]; [contradiction |].
  cbn [truthy negb py_iter obind].
  destruct (block 0 (m :: rest)) as [lines |] eqn:Hlines; [| discriminate].
  cbn [obind]. intros [= <-]. exists lines. split; [reflexivity | split].
  - cbn [manifest_lines] in Hlines.
    destruct (py_get m "identification" (JObj [])) as [identification |];
      [| discriminate].
    cbn [obind] in Hlines.
    destruct (identification_lines str_repr float_repr identification)
      as [id_lines |]; [| discriminate].
    cbn [obind] in Hlines.
    destruct (py_get m "capabilities" (JArr [])) as [capabilities |];
      [| discriminate].
    cbn [obind] in Hlines.
    match type of Hlines with
    | obind ?c _ = _ => destruct c as [cap_lines |]; [| discriminate]
    end.
    cbn [obind] in Hlines.
    destruct (block 1 rest) as [more |]; [| discriminate].
    cbn [obind] in Hlines. injection Hlines as <-. reflexivity.
  - intros k Hk. apply (manifest_lines_headers _ 0%nat lines Hlines k Hk).
Qed.

Lemma get_manifest_found
  (agent_url : string) (st : state) (data : json)
  (pre post : list json) (event manifests : json) (n : Z) :
  exchange_result
    (manifest_post Conversation_default_id uuid4_source remote st agent_url) =
    Ok data ->
  events_of data = Some (pre ++ event :: post)%list ->
  forallb without_manifests pre = true ->
  tagged "publishManifests" event = true ->
  manifests_of event = Ok manifests ->
  truthy manifests = true ->
  py_len manifests = Ok n ->
  fst (get_manifest uuid4_source Conversation_default_id remote agent_url st) =
    Ok (Some manifests).
Proof.
  intros Hdata Hevents Hpre Htag Hman Htruthy Hlen.
  rewrite (get_manifest_delivered _ _ _ _ _ _ Hdata).
  rewrite (extract_manifests_events _ _ Hevents).
  erewrite scan_manifests_found; try eassumption. reflexivity.
Qed.

Lemma format_manifest_first_not_object
  (manifests first : json) (others : list json) :
  truthy manifests = true ->
  py_iter manifests = Ok (first :: others) ->
  is_object first = false ->
  show manifests = Raise AttributeError.
Proof.
  intros Htruthy Hiter Hfirst.
  unfold format_manifest. rewrite Htruthy, Hiter. cbn [negb obind manifest_lines].
  destruct first; try discriminate; reflexivity.
Qed.

(** X16: [get_manifest] hands back whatever truthy, sized value sits under
    [servicingManifests]; when that is a string, an object, or a list that
    starts with something other than an object, [format_manifest] raises
    [AttributeError] on it. *)
Theorem unformattable_manifests
  (agent_url : string) (st : state) (data : json)
  (pre post : list json) (event manifests first : json) (others : list json)
  (n : Z) :
  exchange_result
    (manifest_post Conversation_default_id uuid4_source remote st agent_url) =
    Ok data ->
  events_of data = Some (pre ++ event :: post)%list ->
  forallb without_manifests pre = true ->
  tagged "publishManifests" event = true ->
  manifests_of event = Ok manifests ->
  truthy manifests = true ->
  py_len manifests = Ok n ->
  py_iter manifests = Ok (first :: others) ->
  is_object first = false ->
  fst (get_manifest uuid4_source Conversation_default_id remote agent_url st) =
    Ok (Some manifests) /\
  show manifests = Raise AttributeError.
Proof.
  intros Hdata Hevents Hpre Htag Hman Htruthy Hlen Hiter Hfirst. split.
  - eapply get_manifest_found; eassumption.
  - eapply format_manifest_first_not_object; eassumption.
Qed.

End Formatting.

(** ** Properties of the command-line interface *)

Section Commands.
Variable str_repr : string -> string.
Variable float_repr : float -> string.
Variable uuid4_source : nat -> N.
Variable Conversation_default_id : N -> string.
Variable remote : nat -> string -> Payload -> post_outcome.
Variable strip : string -> string.
Variable lower : string -> string.
Variable split_once : string -> list string.

Local Abbreviation cmd_manifest' :=
  (CLI.cmd_manifest str_repr float_repr uuid4_source Conversation_default_id remote).
Local Abbreviation chat_loop' :=
  (CLI.chat_loop str_repr float_repr uuid4_source Conversation_default_id remote
     strip lower).
Local Abbreviation cmd_chat' :=
  (CLI.cmd_chat str_repr float_repr uuid4_source Conversation_default_id remote
     strip lower).
Local Abbreviation interactive_loop' :=
  (CLI.interactive_loop str_repr float_repr uuid4_source Conversation_default_id
     remote strip lower split_once).
Local Abbreviation run_interactive' :=
  (CLI.run_interactive str_repr float_repr uuid4_source Conversation_default_id
     remote strip lower split_once).
Local Abbreviation manifest_answer agent_url st :=
  (exchange_result
     (manifest_post Conversation_default_id uuid4_source remote st agent_url)).

Lemma cmd_manifest_failed (agent_url : string) (w : CLI.cli_state) :
  fst (get_manifest uuid4_source Conversation_default_id remote agent_url
         (CLI.client w)) = Ok None ->
  exists w',
    cmd_manifest' agent_url w = (CLI.Returned, w') /\
    CLI.screen w' =
      (CLI.screen w ++ [CLI.Printed "❌ Failed to fetch manifest"])%list /\
    CLI.current_agent_url w' = CLI.current_agent_url w.
Proof.
  unfold CLI.cmd_manifest.
  destruct (get_manifest _ _ _ _ _) as [result st]. cbn [fst]. intros ->.
  eexists. repeat split.
Qed.

(** X17: [cmd_manifest] prints the failure notice and leaves the
    remembered url alone when the exchange fails or the response has no
    wrapper key; a response with the wrapper and no manifests counts as a
    success, shown as "No manifests available", and the url is
    remembered. *)
Theorem cmd_manifest_remembers_only_success (agent_url : string) (w : CLI.cli_state) :
  (exchange_fails
     (manifest_post Conversation_default_id uuid4_source remote (CLI.client w)
        agent_url) = true ->
   exists w',
     cmd_manifest' agent_url w = (CLI.Returned, w') /\
     CLI.screen w' =
       (CLI.screen w ++ [CLI.Printed "❌ Failed to fetch manifest"])%list /\
     CLI.current_agent_url w' = CLI.current_agent_url w) /\
  (forall data,
      manifest_answer agent_url (CLI.client w) = Ok data ->
      lacks_wrapper data = true ->
      exists w',
        cmd_manifest' agent_url w = (CLI.Returned, w') /\
        CLI.screen w' =
          (CLI.screen w ++ [CLI.Printed "❌ Failed to fetch manifest"])%list /\
        CLI.current_agent_url w' = CLI.current_agent_url w) /\
  (forall data events,
      manifest_answer agent_url (CLI.client w) = Ok data ->
      events_of data = Some events ->
      forallb without_manifests events = true ->
      exists w',
        cmd_manifest' agent_url w = (CLI.Returned, w') /\
        CLI.screen w' = (CLI.screen w ++ [CLI.Printed "No manifests available"])%list /\
        CLI.current_agent_url w' = Some agent_url).
Proof.
  split; [| split].
  - intros Hfails. apply cmd_manifest_failed.
    rewrite get_manifest_run. cbn [fst].
    destruct (exchange_fails_raises _ Hfails) as [cause Hcause].
    unfold manifest_post in Hcause. rewrite Hcause. reflexivity.
  - intros data Hdata Hlacks. apply cmd_manifest_failed.
    rewrite (get_manifest_delivered _ _ _ _ _ _ Hdata).
    rewrite extract_manifests_unwrapped by assumption. reflexivity.
  - intros data events Hdata Hevents Hnone.
    pose proof (get_manifest_delivered _ _ _ _ _ _ Hdata) as Hresult.
    rewrite (extract_manifests_events _ _ Hevents) in Hresult.
    rewrite scan_manifests_none in Hresult by assumption.
    cbn [obind absent_on_raise] in Hresult.
    unfold CLI.cmd_manifest.
    destruct (get_manifest _ _ _ _ _) as [result st]. cbn [fst] in Hresult.
    subst result. eexists. repeat split.
Qed.

(** X18: when the agent's [servicingManifests] is a string, an object, or
    a list that starts with something other than an object,
    [cmd_manifest] does not return: the [AttributeError] of
    [format_manifest] gets out of it, nothing is printed and the url is
    not remembered; the interactive loop, which catches only Ctrl-C and
    the end of the input, lets the exception through as well. *)
Theorem cmd_manifest_lets_format_errors_out
  (agent_url : string) (w : CLI.cli_state) (data : json)
  (pre post : list json) (event manifests first : json) (others : list json)
  (n : Z) :
  manifest_answer agent_url (CLI.client w) = Ok data ->
  events_of data = Some (pre ++ event :: post)%list ->
  forallb without_manifests pre = true ->
  tagged "publishManifests" event = true ->
  manifests_of event = Ok manifests ->
  truthy manifests = true ->
  py_len manifests = Ok n ->
  py_iter manifests = Ok (first :: others) ->
  is_object first = false ->
  (exists w',
      cmd_manifest' agent_url w = (CLI.Escaped (CLI.Uncaught AttributeError), w') /\
      CLI.screen w' = CLI.screen w /\
      CLI.current_agent_url w' = CLI.current_agent_url w) /\
  (forall bound text word rest,
      strip text <> EmptyString ->
      split_once (strip text) = [word; agent_url] ->
      lower word = "manifest" ->
      agent_url <> EmptyString ->
      exists w',
        interactive_loop' (S bound) (CLI.Line text :: rest) w =
        (CLI.Escaped (CLI.Uncaught AttributeError), rest, w')).
Proof.
  intros Hdata Hevents Hpre Htag Hman Htruthy Hlen Hiter Hfirst.
  pose proof (get_manifest_found _ _ _ _ _ _ _ _ _ _ _
                Hdata Hevents Hpre Htag Hman Htruthy Hlen) as Hresult.
  pose proof (format_manifest_first_not_object str_repr float_repr _ _ _
                Htruthy Hiter Hfirst) as Hshow.
  split.
  - unfold CLI.cmd_manifest.
    destruct (get_manifest _ _ _ _ _) as [result st]. cbn [fst] in Hresult.
    subst result. rewrite Hshow. eexists. repeat split.
  - intros bound text word rest Hline Hsplit Hword Hurl.
    cbn [CLI.interactive_loop].
    destruct (String.eqb_spec (strip text) EmptyString); [contradiction |].
    rewrite Hsplit, Hword. cbn [CLI.is_exit existsb String.eqb Ascii.eqb Bool.eqb orb].
    unfold CLI.choose_url.
    destruct (String.eqb_spec agent_url EmptyString); [contradiction |].
    unfold CLI.cmd_manifest. cbn [CLI.client CLI.say].
    destruct (get_manifest _ _ _ _ _) as [result st]. cbn [fst] in Hresult.
    subst result. rewrite Hshow. eexists. reflexivity.
Qed.

Lemma said_utterance (st : state) (agent_url message : string) :
  CLI.said
    (agent_url,
     utterance_request Conversation_default_id uuid4_source st agent_url message) =
  (agent_url, [message]).
Proof. reflexivity. Qed.

(** One turn of the chat on a line that is sent. *)
Lemma chat_loop_sends (agent_url text : string) (rest : list CLI.keyboard)
  (w : CLI.cli_state) :
  CLI.is_exit (lower (strip text)) = false ->
  strip text <> EmptyString ->
  exists result st',
    send_message str_repr float_repr uuid4_source Conversation_default_id remote
      agent_url (strip text) (CLI.client w) = (Ok result, st') /\
    st' = after_post (CLI.client w) agent_url
            (utterance_request Conversation_default_id uuid4_source (CLI.client w)
               agent_url (strip text)) /\
    chat_loop' agent_url (CLI.Line text :: rest) w =
    chat_loop' agent_url rest
      (CLI.say
         [CLI.Printed
            match result with
            | Some reply => "Agent: " ++ py_str str_repr float_repr reply
            | None => "❌ Failed to get response from agent"
            end]
         (CLI.with_client st' (CLI.say [CLI.Prompt "You: "] w))).
Proof.
  intros Hexit Hline.
  pose proof (send_message_truthy str_repr float_repr uuid4_source
                Conversation_default_id remote agent_url (strip text) (CLI.client w))
    as Htruthy.
  cbn [CLI.chat_loop]. rewrite Hexit.
  destruct (String.eqb_spec (strip text) EmptyString); [contradiction |].
  cbn [CLI.client CLI.say].
  rewrite send_message_run in *. cbn [fst] in Htruthy.
  eexists _, _. split; [reflexivity | split; [reflexivity |]].
  destruct (absent_on_raise _) as [reply |]; [| reflexivity].
  rewrite (Htruthy reply eq_refl). reflexivity.
Qed.

(** X19: in a chat, a line that is sent is answered on the screen by
    ["Agent: "] and the reply when [send_message] returned one, and by the
    failure notice exactly when it returned [None]: a reply is never
    taken for a failure.  The chat then goes on with the next line. *)
Theorem chat_reports_failure_only_for_none
  (agent_url text : string) (rest : list CLI.keyboard) (w : CLI.cli_state) :
  CLI.is_exit (lower (strip text)) = false ->
  strip text <> EmptyString ->
  exists result st',
    send_message str_repr float_repr uuid4_source Conversation_default_id remote
      agent_url (strip text) (CLI.client w) = (Ok result, st') /\
    chat_loop' agent_url (CLI.Line text :: rest) w =
    chat_loop' agent_url rest
      (CLI.say
         [CLI.Printed
            match result with
            | Some reply => "Agent: " ++ py_str str_repr float_repr reply
            | None => "❌ Failed to get response from agent"
            end]
         (CLI.with_client st' (CLI.say [CLI.Prompt "You: "] w))).
Proof.
  intros Hexit Hline.
  destruct (chat_loop_sends agent_url text rest w Hexit Hline)
    as (result & st' & Hsend & _ & Hloop).
  eauto.
Qed.

Lemma chat_loop_invariants (agent_url : string) (keys : list CLI.keyboard) :
  forall w,
  exists consumed rest w',
    chat_loop' agent_url keys w = (CLI.Returned, rest, w') /\
    keys = (consumed ++ rest)%list /\
    this (CLI.client w') = this (CLI.client w) /\
    CLI.current_agent_url w' = CLI.current_agent_url w /\
    map CLI.said (posted (CLI.client w')) =
    (map CLI.said (posted (CLI.client w)) ++
     map (fun m => (agent_url, [m])) (CLI.chat_messages strip lower keys))%list.
Proof.
  induction keys as [| key keys IH]; intros w.
  - exists [], [], (CLI.say [CLI.Printed (nl ++ "👋 Chat session ended")]
                      (CLI.say [CLI.Prompt "You: "] w)).
    cbn. rewrite app_nil_r. repeat split.
  - destruct key as [text |].
    + cbn [CLI.chat_messages].
      destruct (CLI.is_exit (lower (strip text))) eqn:Hexit.
      * exists [CLI.Line text], keys,
          (CLI.say [CLI.Printed "👋 Chat session ended"]
             (CLI.say [CLI.Prompt "You: "] w)).
        cbn [CLI.chat_loop]. rewrite Hexit. cbn. rewrite app_nil_r. repeat split.
      * destruct (String.eqb_spec (strip text) EmptyString) as [Hempty | Hline].
        -- destruct (IH (CLI.say [CLI.Prompt "You: "] w))
             as (consumed & rest & w' & Hloop & Hkeys & Hthis & Hurl & Hposted).
           exists (CLI.Line text :: consumed), rest, w'.
           cbn [CLI.chat_loop]. rewrite Hexit, Hempty. cbn [String.eqb].
           rewrite Hloop. cbn [CLI.client CLI.say CLI.current_agent_url] in *.
           repeat split; try assumption. cbn [app]. f_equal. exact Hkeys.
        -- destruct (chat_loop_sends agent_url text keys w Hexit Hline)
             as (result & st' & _ & Hst & Hstep).
           rewrite Hstep.
           match goal with
           | |- context [chat_loop' agent_url keys ?w1] =>
               destruct (IH w1)
                 as (consumed & rest & w' & Hloop & Hkeys & Hthis & Hurl & Hposted)
           end.
           exists (CLI.Line text :: consumed), rest, w'.
           rewrite Hloop. cbn [CLI.client CLI.say CLI.with_client
                                CLI.current_agent_url] in *.
           subst st'. cbn [after_post this posted] in *.
           rewrite map_app in Hposted. cbn [map] in Hposted.
           rewrite said_utterance in Hposted. rewrite <- app_assoc in Hposted.
           repeat split; try assumption. cbn [app]. f_equal. exact Hkeys.
    + exists [CLI.CtrlC], keys,
        (CLI.say [CLI.Printed (nl ++ "👋 Chat session ended")]
           (CLI.say [CLI.Prompt "You: "] w)).
      cbn. rewrite app_nil_r. repeat split.
Qed.

(** X20: [cmd_chat] always returns.  It remembers the url, even when no
    message got through, leaves the client object as it was, takes keys
    from the front of the script only, and posts to the given url exactly
    the stripped, non-empty lines typed before the exit word, Ctrl-C or
    the end of the input, in order and once each. *)
Theorem cmd_chat_sends_what_was_typed
  (agent_url : string) (keys : list CLI.keyboard) (w : CLI.cli_state) :
  exists consumed rest w',
    cmd_chat' agent_url keys w = (CLI.Returned, rest, w') /\
    keys = (consumed ++ rest)%list /\
    this (CLI.client w') = this (CLI.client w) /\
    CLI.current_agent_url w' = Some agent_url /\
    map CLI.said (posted (CLI.client w')) =
    (map CLI.said (posted (CLI.client w)) ++
     map (fun m => (agent_url, [m])) (CLI.chat_messages strip lower keys))%list.
Proof.
  unfold CLI.cmd_chat.
  match goal with
  | |- context [chat_loop' agent_url keys ?w1] =>
      destruct (chat_loop_invariants agent_url keys w1)
        as (consumed & rest & w' & Hloop & Hkeys & Hthis & Hurl & Hposted)
  end.
  exists consumed, rest, w'. repeat split; assumption.
Qed.

Lemma cmd_manifest_invariants (agent_url : string) (w : CLI.cli_state) :
  exists ended w',
    cmd_manifest' agent_url w = (ended, w') /\
    ended <> CLI.Unfinished /\
    (forall code, ended <> CLI.Escaped (CLI.SystemExit code)) /\
    this (CLI.client w') = this (CLI.client w).
Proof.
  unfold CLI.cmd_manifest. rewrite get_manifest_run.
  destruct (absent_on_raise _) as [manifests |].
  - destruct (format_manifest str_repr float_repr manifests);
      eexists _, _; repeat split; discriminate.
  - eexists _, _; repeat split; discriminate.
Qed.

Lemma choose_url_keeps (arg : string) (w : CLI.cli_state) (agent_url : string)
  (w' : CLI.cli_state) :
  CLI.choose_url arg w = Some (agent_url, w') ->
  CLI.client w' = CLI.client w.
Proof.
  unfold CLI.choose_url. destruct (String.eqb arg EmptyString).
  - destruct (CLI.current_agent_url w) as [last |]; [| discriminate].
    destruct (String.eqb last EmptyString); [discriminate |].
    intros [= _ <-]. reflexivity.
  - intros [= _ <-]. reflexivity.
Qed.

Lemma interactive_loop_invariants (bound : nat) :
  forall keys w,
    (length keys < bound)%nat ->
    exists ended rest w',
      interactive_loop' bound keys w = (ended, rest, w') /\
      ended <> CLI.Unfinished /\
      (forall code, ended <> CLI.Escaped (CLI.SystemExit code)) /\
      (length rest <= length keys)%nat /\
      this (CLI.client w') = this (CLI.client w).
Proof.
  induction bound as [| bound IH]; intros keys w Hbound; [lia |].
  assert (Hnext : forall rest w1,
             (length rest <= length keys - 1)%nat ->
             (0 < length keys)%nat ->
             this (CLI.client w1) = this (CLI.client w) ->
             exists ended rest' w',
               interactive_loop' bound rest w1 = (ended, rest', w') /\
               ended <> CLI.Unfinished /\
               (forall code, ended <> CLI.Escaped (CLI.SystemExit code)) /\
               (length rest' <= length keys)%nat /\
               this (CLI.client w') = this (CLI.client w)).
  { intros rest w1 Hrest Hkeys Hthis.
    destruct (IH rest w1 ltac:(lia))
      as (ended & rest' & w' & Hloop & Hended & Hexit & Hlen & Hclient).
    exists ended, rest', w'. repeat split; try assumption; [lia | congruence]. }
  cbn [CLI.interactive_loop].
  destruct keys as [| [text |] rest].
  - eexists _, _, _. repeat split; try discriminate. cbn [length]. lia.
  - cbn [length] in *.
    destruct (String.eqb (strip text) EmptyString);
      [apply Hnext; [lia | lia | reflexivity] |].
    destruct (split_once (strip text)) as [| first more].
    { eexists _, _, _. repeat split; try discriminate. lia. }
    destruct (CLI.is_exit (lower first)).
    { eexists _, _, _. repeat split; try discriminate. lia. }
    destruct (String.eqb (lower first) "help");
      [apply Hnext; [lia | lia | reflexivity] |].
    destruct (String.eqb (lower first) "manifest").
    { destruct (CLI.choose_url _ _) as [[agent_url w1] |] eqn:Hchoose;
        [| apply Hnext; [lia | lia | reflexivity]].
      apply choose_url_keeps in Hchoose. cbn [CLI.client CLI.say] in Hchoose.
      destruct (cmd_manifest_invariants agent_url w1)
        as (ended & w2 & -> & Hended & Hexit & Hthis).
      destruct ended as [| e |]; [| | contradiction].
      - apply Hnext; [lia | lia | congruence].
      - eexists _, _, _. repeat split; try discriminate; try assumption;
          [lia | congruence]. }
    destruct (String.eqb (lower first) "chat").
    { destruct (CLI.choose_url _ _) as [[agent_url w1] |] eqn:Hchoose;
        [| apply Hnext; [lia | lia | reflexivity]].
      apply choose_url_keeps in Hchoose. cbn [CLI.client CLI.say] in Hchoose.
      unfold CLI.cmd_chat.
      match goal with
      | |- context [chat_loop' agent_url rest ?w2] =>
          destruct (chat_loop_invariants agent_url rest w2)
            as (consumed & rest' & w3 & -> & Hkeys & Hthis & _)
      end.
      cbn [CLI.client CLI.say CLI.remember] in Hthis.
      apply Hnext; [| lia | congruence].
      rewrite Hkeys, length_app. lia. }
    apply Hnext; [lia | lia | reflexivity].
  - eexists _, _, _. repeat split; try discriminate. cbn [length]. lia.
Qed.

(** X21: [run_interactive] comes to an end on every keyboard script: it
    returns (on an exit word, Ctrl-C or the end of the input) or lets an
    exception of the client code through, without calling [sys.exit] and
    well within the loop bound of the model; what is left of the script is
    no longer than the script, and the client object is the one it
    started with. *)
Theorem run_interactive_ends (keys : list CLI.keyboard) (w : CLI.cli_state) :
  exists ended rest w',
    run_interactive' keys w = (ended, rest, w') /\
    match ended with
    | CLI.Returned | CLI.Escaped (CLI.Uncaught _) => True
    | _ => False
    end /\
    (length rest <= length keys)%nat /\
    this (CLI.client w') = this (CLI.client w).
Proof.
  unfold CLI.run_interactive.
  destruct (interactive_loop_invariants (S (length keys)) keys (CLI.print_banner w)
              ltac:(lia))
    as (ended & rest & w' & Hloop & Hended & Hexit & Hlen & Hthis).
  exists ended, rest, w'. repeat split; try assumption.
  destruct ended as [| [e | code] |]; try exact I; [| contradiction].
  exact (Hexit code eq_refl).
Qed.

Lemma choose_url_none (w : CLI.cli_state) :
  CLI.has_url w = false -> CLI.choose_url EmptyString w = None.
Proof.
  unfold CLI.has_url, CLI.choose_url. cbn [String.eqb].
  destruct (CLI.current_agent_url w) as [last |]; [| reflexivity].
  destruct (String.eqb last EmptyString); [reflexivity | discriminate].
Qed.

Lemma interactive_loop_without_url (bound : nat) :
  forall keys w,
    CLI.has_url w = false ->
    forallb (CLI.no_argument strip split_once) keys = true ->
    posted (CLI.client (snd (interactive_loop' bound keys w))) =
      posted (CLI.client w) /\
    CLI.current_agent_url (snd (interactive_loop' bound keys w)) =
      CLI.current_agent_url w.
Proof.
  induction bound as [| bound IH]; intros keys w Hurl Hkeys; [split; reflexivity |].
  cbn [CLI.interactive_loop].
  destruct keys as [| [text |] rest]; [split; reflexivity | | split; reflexivity].
  cbn [forallb CLI.no_argument] in Hkeys. apply andb_prop in Hkeys as [Harg Hrest].
  apply String.eqb_eq in Harg. unfold CLI.argument_of in Harg.
  assert (Hnext : forall w1,
             CLI.client w1 = CLI.client w ->
             CLI.current_agent_url w1 = CLI.current_agent_url w ->
             posted (CLI.client (snd (interactive_loop' bound rest w1))) =
               posted (CLI.client w) /\
             CLI.current_agent_url (snd (interactive_loop' bound rest w1)) =
               CLI.current_agent_url w).
  { intros w1 Hclient Hsame.
    assert (Hurl1 : CLI.has_url w1 = false)
      by (unfold CLI.has_url in *; rewrite Hsame; exact Hurl).
    destruct (IH rest w1 Hurl1 Hrest) as [Hposted Hcurrent].
    split; congruence. }
  destruct (String.eqb (strip text) EmptyString); [apply Hnext; reflexivity |].
  destruct (split_once (strip text)) as [| first more]; [split; reflexivity |].
  assert (Hmore : match more with
                  | second :: _ => second
                  | [] => EmptyString
                  end = EmptyString)
    by (destruct more; [reflexivity | exact Harg]).
  rewrite Hmore.
  destruct (CLI.is_exit (lower first)); [split; reflexivity |].
  destruct (String.eqb (lower first) "help"); [apply Hnext; reflexivity |].
  assert (Hnone : forall out,
             CLI.choose_url EmptyString (CLI.say out w) = None)
    by (intros out; apply choose_url_none; exact Hurl).
  destruct (String.eqb (lower first) "manifest");
    [rewrite Hnone; apply Hnext; reflexivity |].
  destruct (String.eqb (lower first) "chat");
    [rewrite Hnone; apply Hnext; reflexivity |].
  apply Hnext; reflexivity.
Qed.

(** X22: as long as no url has been remembered and no command line
    carries an argument, [run_interactive] never contacts an agent,
    whatever commands are typed, and still remembers no url: [manifest]
    and [chat] without a url only ask for one. *)
Theorem no_url_no_contact (keys : list CLI.keyboard) (w : CLI.cli_state) :
  CLI.has_url w = false ->
  forallb (CLI.no_argument strip split_once) keys = true ->
  posted (CLI.client (snd (run_interactive' keys w))) = posted (CLI.client w) /\
  CLI.current_agent_url (snd (run_interactive' keys w)) = CLI.current_agent_url w.
Proof.
  intros Hurl Hkeys. unfold CLI.run_interactive.
  apply (interactive_loop_without_url (S (length keys)) keys (CLI.print_banner w));
    assumption.
Qed.

End Commands.

(** ** When two sessions share an identifier *)

Section Collisions.

Lemma hex_value_digit (n : N) : (n < 16)%N -> hex_value (hex_digit n) = n.
Proof.
  intros Hn. rewrite <- (N2Nat.id n) at 2. unfold hex_digit.
  assert (Hk : (N.to_nat n < 16)%nat) by lia.
  remember (N.to_nat n) as k eqn:Heq. clear Heq Hn.
  do 16 (destruct k as [| k]; [reflexivity |]). lia.
Qed.

Lemma append_last_inj (a b : string) (c d : ascii) :
  a ++ String c EmptyString = b ++ String d EmptyString -> a = b /\ c = d.
Proof.
  revert b. induction a as [| x a IH]; intros [| y b]; cbn [append].
  - intros [= ->]. split; reflexivity.
  - intros [= _ H]. destruct b; discriminate.
  - intros [= _ H]. destruct a; discriminate.
  - intros [= -> H]. destruct (IH b H) as [-> ->]. split; reflexivity.
Qed.

Lemma low_digit (x m : N) :
  ((x mod (16 * m)) mod 16 = x mod 16 /\
   (x mod (16 * m)) / 16 = (x / 16) mod m)%N.
Proof.
  rewrite N.Div0.mod_mul_r.
  assert (Hlow : (x mod 16 < 16)%N) by (apply N.mod_lt; discriminate).
  split.
  - symmetry. apply N.mod_unique with (q := ((x / 16) mod m)%N); [exact Hlow | lia].
  - symmetry. apply N.div_unique with (r := (x mod 16)%N); [exact Hlow | lia].
Qed.

Lemma hex_of_mod (digits : nat) (x : N) :
  hex_of digits x = hex_of digits (x mod 16 ^ N.of_nat digits)%N.
Proof.
  revert x. induction digits as [| d IH]; intros x; [reflexivity |].
  rewrite Nat2N.inj_succ, N.pow_succ_r'. cbn [hex_of].
  destruct (low_digit x (16 ^ N.of_nat d)) as [-> ->].
  rewrite <- IH. reflexivity.
Qed.

Lemma hex_of_inj (digits : nat) (x y : N) :
  hex_of digits x = hex_of digits y ->
  (x mod 16 ^ N.of_nat digits = y mod 16 ^ N.of_nat digits)%N.
Proof.
  revert x y. induction digits as [| d IH]; intros x y.
  - intros _. cbn. rewrite !N.mod_1_r. reflexivity.
  - cbn [hex_of]. intros H. apply append_last_inj in H as [Hhigh Hlow].
    apply IH in Hhigh. apply (f_equal hex_value) in Hlow.
    rewrite !hex_value_digit in Hlow by (apply N.mod_lt; discriminate).
    rewrite Nat2N.inj_succ, N.pow_succ_r', !N.Div0.mod_mul_r. congruence.
Qed.

Lemma append_assoc_string (a b c : string) : (a ++ b) ++ c = a ++ (b ++ c).
Proof.
  induction a as [| x a IH]; cbn [append]; [reflexivity |].
  rewrite IH. reflexivity.
Qed.

Lemma append_empty_r (a : string) : a ++ EmptyString = a.
Proof.
  induction a as [| x a IH]; cbn [append]; [reflexivity |].
  rewrite IH. reflexivity.
Qed.

Lemma hex_of_split (high low : nat) (x : N) :
  hex_of (high + low) x =
  hex_of high (x / 16 ^ N.of_nat low)%N ++ hex_of low x.
Proof.
  revert x. induction low as [| k IH]; intros x.
  - rewrite Nat.add_0_r. cbn [N.of_nat hex_of]. rewrite N.pow_0_r, N.div_1_r.
    rewrite append_empty_r. reflexivity.
  - rewrite Nat.add_succ_r. cbn [hex_of]. rewrite IH, append_assoc_string.
    rewrite N.Div0.div_div, Nat2N.inj_succ, N.pow_succ_r'. reflexivity.
Qed.

Lemma substring_prefix (a b : string) : substring 0 (String.length a) (a ++ b) = a.
Proof.
  induction a as [| x a IH]; cbn [String.length append substring].
  - destruct b; reflexivity.
  - rewrite IH. reflexivity.
Qed.

Lemma short_hex_is (u : N) :
  substring 0 8 (uuid_hex u) = hex_of 8 (leading_bits u).
Proof.
  unfold uuid_hex, leading_bits.
  change 32%nat with (8 + 24)%nat. rewrite hex_of_split.
  rewrite <- (hex_of_length 8 ((u mod 2 ^ 128) / 16 ^ N.of_nat 24)) at 1.
  rewrite substring_prefix. reflexivity.
Qed.

Lemma leading_bits_small (u : N) : (leading_bits u < 16 ^ N.of_nat 8)%N.
Proof.
  unfold leading_bits. apply N.Div0.div_lt_upper_bound.
  change (2 ^ 96 * 16 ^ N.of_nat 8)%N with (2 ^ 128)%N.
  apply N.mod_lt. discriminate.
Qed.

Lemma short_hex_eq_iff (u v : N) :
  substring 0 8 (uuid_hex u) = substring 0 8 (uuid_hex v) <->
  leading_bits u = leading_bits v.
Proof.
  rewrite !short_hex_is. split.
  - intros H. apply hex_of_inj in H.
    rewrite !N.mod_small in H by apply leading_bits_small. exact H.
  - intros ->. reflexivity.
Qed.

Lemma append_inj_l (a x y : string) : a ++ x = a ++ y -> x = y.
Proof.
  induction a as [| c a IH]; cbn [append]; [auto |].
  intros [= H]. auto.
Qed.

(** X23: the identifiers show eight hexadecimal digits of a uuid, so two
    sessions get the same conversation id exactly when the uuids drawn for
    them agree on their leading 32 bits, however they differ in the other
    96; the same holds for two made-up speaker ids. *)
Theorem sessions_collide_on_leading_bits
  (source_a source_b : nat -> N) (speaker_a service_a speaker_b service_b : option string)
  (st_a st_b : state) :
  let a := snd (__init__ source_a speaker_a service_a st_a) in
  let b := snd (__init__ source_b speaker_b service_b st_b) in
  (conversation_id (this a) = conversation_id (this b) <->
   leading_bits (source_a (pred (uuids_drawn a))) =
   leading_bits (source_b (pred (uuids_drawn b)))) /\
  (omitted speaker_a = true -> omitted speaker_b = true ->
   (speaker_uri (this a) = speaker_uri (this b) <->
    leading_bits (source_a (uuids_drawn st_a)) =
    leading_bits (source_b (uuids_drawn st_b)))).
Proof.
  cbv zeta. unfold __init__, bind, or_else, omitted.
  destruct speaker_a as [sa |]; [destruct (String.eqb sa EmptyString) |];
    (destruct service_a as [va |]; [destruct (String.eqb va EmptyString) |]);
    (destruct speaker_b as [sb |]; [destruct (String.eqb sb EmptyString) |]);
    (destruct service_b as [vb |]; [destruct (String.eqb vb EmptyString) |]);
    cbn -[uuid_hex substring append]; (split; [| intros; try discriminate]);
    rewrite <- short_hex_eq_iff;
    (split; [apply append_inj_l | intros ->; reflexivity]).
Qed.

End Collisions.

(** ** Concrete runs of the further properties *)

Lemma X1_witness :
  exists h,
    speaker_uri (this (snd (__init__ uuids None None start))) = "client:" ++ h /\
    String.length h = 8%nat /\ all_hex h = true.
Proof.
  exact (proj2 (proj2 (proj2 (init_identifier_format uuids None None start)))
           eq_refl).
Defined.

Lemma X2_witness :
  speaker_uri
    (this (snd (__init__ uuids (Some "client:desk") (Some EmptyString) start))) =
  "client:desk" /\
  uuids_drawn (snd (__init__ uuids (Some "client:desk") (Some EmptyString) start)) =
  1%nat.
Proof.
  refine (proj1 (init_arguments uuids (Some "client:desk") (Some EmptyString) start)
            "client:desk" eq_refl _).
  discriminate.
Defined.


Lemma X5_witness :
  JArr [obj [("capabilities", JArr [])]] = JArr [] \/
  (truthy (JArr [obj [("capabilities", JArr [])]]) = true /\ True).
Proof.
  refine (get_manifest_result_is_sized uuids library_id
            (agent 200
               (Some (response
                        [manifests_event (JArr [obj [("capabilities", JArr [])]])])))
            url session (JArr [obj [("capabilities", JArr [])]]) _).
  reflexivity.
Defined.

Lemma X6_witness :
  fst (get_manifest uuids library_id
         (agent 200
            (Some (response
                     [manifests_event (JInt 42);
                      manifests_event (JArr [obj [("capabilities", JArr [])]])])))
         url session) =
  Ok None.
Proof.
  refine (unsized_manifests_are_absent uuids library_id _ url session _
            [] [manifests_event (JArr [obj [("capabilities", JArr [])]])]
            (manifests_event (JInt 42)) (JInt 42) _ _ _ _ _ _ _);
    reflexivity.
Defined.

Lemma X7_witness :
  fst (send_message plain_repr no_float uuids library_id
         (agent 200
            (Some (response
                     [JStr "utterance";
                      text_event (obj [("values", JArr [JStr "hello back"])])])))
         url "hello" session) =
  Ok None.
Proof.
  refine (proj2 (malformed_event_is_absent plain_repr no_float uuids library_id _
                   url "hello" session)
            _ [] [text_event (obj [("values", JArr [JStr "hello back"])])]
            (JStr "utterance") _ _ _ _);
    reflexivity.
Defined.

Lemma X8_witness :
  fst (get_manifest uuids library_id (agent 200 (Some (obj [("openFloor", JNull)])))
         url session) =
  Ok None.
Proof.
  refine (proj1 (malformed_wrapper_is_absent plain_repr no_float uuids library_id
                   (agent 200 (Some (obj [("openFloor", JNull)]))) url "hello" session
                   _ _ [("openFloor", JNull)] [("openFloor", JNull)] _ _ _ _)
            JNull _ _);
    reflexivity.
Defined.

Lemma X9_witness :
  exists tail chars,
    py_chars "hello" = String "h" tail :: chars /\
    fst (send_message plain_repr no_float uuids library_id
           (agent 200 (Some (response [text_event (obj [("values", JStr "hello")])])))
           url "hi" session) =
    Ok (Some (JStr (String "h" tail))).
Proof.
  refine (string_values_give_first_character plain_repr no_float uuids library_id
            _ url "hi" session _ [] []
            (text_event (obj [("values", JStr "hello")]))
            [("values", JStr "hello")] "h" "ello" _ _ _ _ _ _);
    reflexivity.
Defined.

Lemma X10_witness :
  fst (send_message plain_repr no_float uuids library_id
         (agent 200
            (Some (response
                     [text_event
                        (obj [("tokens", JArr [obj [("value", JStr "a")];
                                               obj [("value", JInt 1)]])])])))
         url "hi" session) =
  Ok None.
Proof.
  refine (non_string_token_is_absent plain_repr no_float uuids library_id
            _ url "hi" session _ [] []
            (text_event
               (obj [("tokens", JArr [obj [("value", JStr "a")];
                                      obj [("value", JInt 1)]])]))
            [("tokens", JArr [obj [("value", JStr "a")]; obj [("value", JInt 1)]])]
            [[("value", JStr "a")]; [("value", JInt 1)]] _ _ _ _ _ _ _ _);
    reflexivity.
Defined.

Lemma X11_witness :
  fst (send_message plain_repr no_float uuids library_id
         (agent 200 (Some (response [text_event (obj [("value", JNull)])])))
         url "hi" session) =
  Ok (Some (JStr "None")).
Proof.
  refine (proj1 (proj2
    (bare_value_is_rendered plain_repr no_float uuids library_id
       _ url "hi" session _ [] [] (text_event (obj [("value", JNull)]))
       [("value", JNull)] JNull _ _ _ _ _ _ _ _ _)) _);
    reflexivity.
Defined.

Lemma X12_witness :
  utterance_text plain_repr no_float (obj [("eventType", JStr "utterance")]) =
  Ok (JStr EmptyString).
Proof.
  refine (proj1 (utterance_without_text_is_passed_over plain_repr no_float
                   [("eventType", JStr "utterance")] _ _)).
  - reflexivity.
  - left. reflexivity.
Defined.

Lemma X13_witness : truthy (JStr "hello back") = true.
Proof.
  refine (proj1 (send_message_result_is_truthy plain_repr no_float uuids library_id
                   (agent 200
                      (Some (response
                               [text_event
                                  (obj [("values", JArr [JStr "hello back"])])])))
                   url "hi" session (JStr "hello back") _)).
  reflexivity.
Defined.


Lemma X15_witness :
  exists lines,
    nl ++ "📋 Manifest 1:" ++ nl ++ nl ++ "📋 Manifest 2:" = join nl lines /\
    hd EmptyString lines = manifest_header 0 /\
    forall k, (k < 2)%nat -> In (manifest_header k) lines.
Proof.
  refine (manifests_are_numbered_from_one plain_repr no_float [obj []; obj []] _ _ _).
  - discriminate.
  - reflexivity.
Defined.

Lemma X16_witness :
  fst (get_manifest uuids library_id
         (agent 200 (Some (response [manifests_event (JStr "oops")]))) url session) =
  Ok (Some (JStr "oops")) /\
  format_manifest plain_repr no_float (JStr "oops") = Raise AttributeError.
Proof.
  refine (unformattable_manifests plain_repr no_float uuids library_id _ url session
            _ [] [] (manifests_event (JStr "oops")) (JStr "oops")
            (JStr "o") [JStr "o"; JStr "p"; JStr "s"] 4 _ _ _ _ _ _ _ _ _);
    reflexivity.
Defined.

Lemma X17_witness :
  exists w',
    CLI.cmd_manifest plain_repr no_float uuids library_id (agent 503 None) url desk =
    (CLI.Returned, w') /\
    CLI.screen w' = [CLI.Printed "❌ Failed to fetch manifest"] /\
    CLI.current_agent_url w' = None.
Proof.
  refine (proj1 (cmd_manifest_remembers_only_success plain_repr no_float uuids
                   library_id (agent 503 None) url desk) _).
  reflexivity.
Defined.

Lemma X18_witness :
  exists w',
    CLI.interactive_loop plain_repr no_float uuids library_id
      (agent 200 (Some (response [manifests_event (JStr "oops")])))
      CLI.AsciiStr.strip CLI.AsciiStr.lower CLI.AsciiStr.split_once
      2 [CLI.Line "Manifest http://agent.example/"; CLI.Line "quit"] desk =
    (CLI.Escaped (CLI.Uncaught AttributeError), [CLI.Line "quit"], w').
Proof.
  refine (proj2
    (cmd_manifest_lets_format_errors_out plain_repr no_float uuids library_id
       (agent 200 (Some (response [manifests_event (JStr "oops")])))
       CLI.AsciiStr.strip CLI.AsciiStr.lower CLI.AsciiStr.split_once
       url desk _ [] []
       (manifests_event (JStr "oops")) (JStr "oops")
       (JStr "o") [JStr "o"; JStr "p"; JStr "s"] 4 _ _ _ _ _ _ _ _ _)
    1%nat "Manifest http://agent.example/" "Manifest" [CLI.Line "quit"] _ _ _ _);
    first [reflexivity | discriminate].
Defined.

Lemma X19_witness :
  exists result st',
    send_message plain_repr no_float uuids library_id (unreachable Timeout)
      url "hello" session = (Ok result, st') /\
    CLI.chat_loop plain_repr no_float uuids library_id (unreachable Timeout)
      CLI.AsciiStr.strip CLI.AsciiStr.lower url [CLI.Line "  hello "] desk =
    CLI.chat_loop plain_repr no_float uuids library_id (unreachable Timeout)
      CLI.AsciiStr.strip CLI.AsciiStr.lower url []
      (CLI.say
         [CLI.Printed
            match result with
            | Some reply => "Agent: " ++ py_str plain_repr no_float reply
            | None => "❌ Failed to get response from agent"
            end]
         (CLI.with_client st' (CLI.say [CLI.Prompt "You: "] desk))).
Proof.
  refine (chat_reports_failure_only_for_none plain_repr no_float uuids library_id
            (unreachable Timeout) CLI.AsciiStr.strip CLI.AsciiStr.lower
            url "  hello " [] desk _ _);
    first [reflexivity | discriminate].
Defined.

Lemma X22_witness :
  posted
    (CLI.client
       (snd (CLI.run_interactive plain_repr no_float uuids library_id
               (agent 200 (Some (response [])))
               CLI.AsciiStr.strip CLI.AsciiStr.lower CLI.AsciiStr.split_once
               [CLI.Line "manifest"; CLI.Line "chat"; CLI.Line "status"] desk))) =
  [] /\
  CLI.current_agent_url
    (snd (CLI.run_interactive plain_repr no_float uuids library_id
            (agent 200 (Some (response [])))
            CLI.AsciiStr.strip CLI.AsciiStr.lower CLI.AsciiStr.split_once
            [CLI.Line "manifest"; CLI.Line "chat"; CLI.Line "status"] desk)) =
  None.
Proof.
  refine (no_url_no_contact plain_repr no_float uuids library_id
            (agent 200 (Some (response [])))
            CLI.AsciiStr.strip CLI.AsciiStr.lower CLI.AsciiStr.split_once
            [CLI.Line "manifest"; CLI.Line "chat"; CLI.Line "status"] desk _ _);
    reflexivity.
Defined.

Lemma X23_witness :
  conversation_id (this (snd (__init__ uuids None None start))) =
  conversation_id
    (this (snd (__init__ (fun n => (uuids n + 77)%N) (Some "client:desk") None start))).
Proof.
  refine (proj2 (proj1
    (sessions_collide_on_leading_bits uuids (fun n => (uuids n + 77)%N)
       None None (Some "client:desk") None start start)) _).
  reflexivity.
Defined.
